(** * Clusterwise linear model: the Gaussian-mixture regressor

    A shallow embedding of [cwlm/gmm_regressor.py] and the properties of its
    fit / predict / score life cycle.

    The module is numpy code driving two scikit-learn estimators.  The
    embedding keeps three layers apart:

    - the scalars ([np.float64]) are an abstract carrier with the operations
      the module applies to them (class [Scalar]); no algebraic law is
      assumed unless a lemma lists it as a hypothesis;
    - the numpy fragment the module uses (shapes, slicing, [squeeze],
      [np.newaxis], broadcasting, [np.dot], [np.sum], [np.argmax]) is defined
      here on arrays stored as a shape and a row-major list of entries;
    - the scikit-learn estimators ([GaussianMixture], [Ridge]) and
      [r2_score] are collaborators outside the repository (class [Sklearn]):
      any function of the right type, free to raise. *)

From Stdlib Require Import List String Bool Arith Lia ZArith QArith.
From Stdlib Require Import DecimalString Qcanon.
Import ListNotations.

Local Open Scope string_scope.
Local Open Scope list_scope.
Local Open Scope nat_scope.

(** ** Exceptions and results *)

(** The Python exceptions the module and its collaborators can raise,
    followed by the error taxonomy of the specification.  No statement of
    [gmm_regressor.py] constructs one of the last five. *)
Inductive exception : Type :=
| NameError (name : string)
| AttributeError (attr : string)
| IndexError
| ValueError
| SystemExit (code : option nat)
| NotFittedError
| ShapeMismatchError
| FitError
| DegenerateComponentError
| SingularMatrixError.

Inductive result (A : Type) : Type :=
| Return (a : A)
| Raise (e : exception).

Arguments Return {A} a.
Arguments Raise {A} e.

Definition rbind {A B : Type} (r : result A) (f : A -> result B) : result B :=
  match r with
  | Return a => f a
  | Raise e => Raise e
  end.

Declare Scope result_scope.
Delimit Scope result_scope with result.
Notation "x <- r ;; k" := (rbind r (fun x => k))
  (at level 61, r at next level, right associativity) : result_scope.
Notation "' p <- r ;; k" := (rbind r (fun x => match x with p => k end))
  (at level 61, p pattern, r at next level, right associativity) : result_scope.

(** ** The module's global names

    [import] statements of the file, then its two top-level definitions.  A
    name that is not bound here (and is not a builtin) raises [NameError]
    when it is evaluated. *)
Definition module_globals : list string :=
  ["np"; "solve"; "GMM"; "Ridge"; "r2_score";
   "_estimate_regression_params_k"; "GMMRegressor"].

Definition is_global (name : string) : bool :=
  existsb (String.eqb name) module_globals.

(** What evaluating the call [sys.exit(code)] raises: [SystemExit] when the
    name [sys] is bound, the failed name lookup otherwise. *)
Definition sys_exit_raises (code : option nat) : exception :=
  if is_global "sys" then SystemExit code else NameError "sys".

(** [str(n)] for a non-negative integer, as [str.format] inserts it. *)
Definition str_of_nat (n : nat) : string :=
  NilZero.string_of_uint (Nat.to_uint n).

(** ** Scalars *)

(** [np.float64] with the operations the module uses.  [of_nat] is the
    conversion of a Python [int] in mixed arithmetic, [ltb] the strict
    comparison behind [np.argmax], [finfo_eps] is [np.finfo(float).eps]. *)
Class Scalar (F : Type) : Type := {
  zero : F;
  one : F;
  add : F -> F -> F;
  sub : F -> F -> F;
  mul : F -> F -> F;
  div : F -> F -> F;
  of_nat : nat -> F;
  ltb : F -> F -> bool;
  finfo_eps : F
}.

(** The laws of exact arithmetic used to read a dot product with a leading
    column of ones as "bias plus linear part".  Floating-point addition is
    not associative: a lemma that needs these laws holds for [np.float64] up
    to rounding only, and says so by taking them as a hypothesis. *)
Record ExactLaws (F : Type) `{Scalar F} : Prop := {
  add_0_l : forall x : F, add zero x = x;
  add_0_r : forall x : F, add x zero = x;
  add_assoc : forall x y z : F, add x (add y z) = add (add x y) z;
  mul_1_l : forall x : F, mul one x = x
}.

Section NumPy.

Context {F : Type} `{Scalar F}.

(** ** Arrays

    The operations are defined for the ranks the module reaches: the
    inputs and every intermediate array have one or two axes, the weight
    tensor has three, and [fit] never stores more.  Where numpy would also
    accept an operand of higher rank (a two-index slice of a three-axis
    array, a product with a three-axis operand) the model raises instead;
    no method gets there from arrays that [fit] stored and collaborators
    that return the shapes of their contract. *)

(** An [ndarray]: its shape and its entries in row-major (C) order. *)
Record ndarray : Type := {
  shape : list nat;
  data : list F
}.

Definition ndim (A : ndarray) : nat := List.length (shape A).

Definition tab {A : Type} (n : nat) (f : nat -> A) : list A :=
  map f (seq 0 n).

Definition mk1 (n : nat) (f : nat -> F) : ndarray :=
  {| shape := [n]; data := tab n f |}.

Definition mk2 (n m : nat) (f : nat -> nat -> F) : ndarray :=
  {| shape := [n; m]; data := List.concat (tab n (fun i => tab m (f i))) |}.

Definition mk3 (a b c : nat) (f : nat -> nat -> nat -> F) : ndarray :=
  {| shape := [a; b; c];
     data := List.concat (tab (a * b) (fun ij => tab c (f (ij / b) (ij mod b)))) |}.

Definition get1 (A : ndarray) (i : nat) : F := nth i (data A) zero.

Definition get2 (A : ndarray) (i j : nat) : F :=
  match shape A with
  | [_; m] => nth (i * m + j) (data A) zero
  | _ => zero
  end.

Definition get3 (A : ndarray) (i j k : nat) : F :=
  match shape A with
  | [_; b; c] => nth ((i * b + j) * c + k) (data A) zero
  | _ => zero
  end.

(** [n, d = A.shape]: unpacking fails unless the array has two axes. *)
Definition shape2 (A : ndarray) : result (nat * nat) :=
  match shape A with
  | [n; d] => Return (n, d)
  | _ => Raise ValueError
  end.

(** [A.squeeze()]: every axis of length one is dropped, the entries stay. *)
Definition squeeze (A : ndarray) : ndarray :=
  {| shape := filter (fun s => negb (s =? 1)) (shape A); data := data A |}.

(** [v[:, np.newaxis]] on a one-axis array: a new last axis of length one. *)
Definition newaxis_col (A : ndarray) : ndarray :=
  {| shape := shape A ++ [1]; data := data A |}.

(** [A[np.newaxis, :, :]]: the two slices need two axes to index. *)
Definition newaxis_front (A : ndarray) : result ndarray :=
  if 2 <=? ndim A then Return {| shape := 1 :: shape A; data := data A |}
  else Raise IndexError.

Definition zeros2 (n m : nat) : ndarray := mk2 n m (fun _ _ => zero).

(** [np.empty]: the contents are unspecified; [fit] overwrites every entry
    it later stores.  The model fills the array with [zero]. *)
Definition empty3 (a b c : nat) : ndarray := mk3 a b c (fun _ _ _ => zero).

(** [np.concatenate((np.ones((n, 1)), X), axis=1)] for an [n] by [d] array. *)
Definition concat_ones (n d : nat) (X : ndarray) : ndarray :=
  mk2 n (S d) (fun i l => match l with 0 => one | S l' => get2 X i l' end).

(** [A.T] for two axes. *)
Definition transpose (A : ndarray) : ndarray :=
  match shape A with
  | [a; b] => mk2 b a (fun i j => get2 A j i)
  | _ => A
  end.

Definition sum_list (l : list F) : F := fold_left add l zero.

(** [np.dot(A, B)] for two-axis operands: the inner lengths must agree. *)
Definition dot (A B : ndarray) : result ndarray :=
  match shape A, shape B with
  | [n; m], [m'; p] =>
      if m =? m'
      then Return (mk2 n p (fun i j =>
             sum_list (tab m (fun l => mul (get2 A i l) (get2 B l j)))))
      else Raise ValueError
  | _, _ => Raise ValueError
  end.

(** Broadcasting of one axis: equal lengths, or one of them is one. *)
Definition bdim (a b : nat) : option nat :=
  if a =? b then Some a
  else if a =? 1 then Some b
  else if b =? 1 then Some a
  else None.

Definition bidx (a i : nat) : nat := if a =? 1 then 0 else i.

(** An elementwise binary operator on two-axis operands, with broadcasting. *)
Definition broadcast2 (op : F -> F -> F) (A B : ndarray) : result ndarray :=
  match shape A, shape B with
  | [a1; a2], [b1; b2] =>
      match bdim a1 b1, bdim a2 b2 with
      | Some r, Some c =>
          Return (mk2 r c (fun i j =>
            op (get2 A (bidx a1 i) (bidx a2 j)) (get2 B (bidx b1 i) (bidx b2 j))))
      | _, _ => Raise ValueError
      end
  | _, _ => Raise ValueError
  end.

(** [T += P] on two-axis arrays: [P] is broadcast to the shape of [T]. *)
Definition iadd2 (T P : ndarray) : result ndarray :=
  match shape T, shape P with
  | [n; t], [r; c] =>
      if ((r =? n) || (r =? 1)) && ((c =? t) || (c =? 1))
      then Return (mk2 n t (fun i j =>
             add (get2 T i j) (get2 P (bidx r i) (bidx c j))))
      else Raise ValueError
  | _, _ => Raise ValueError
  end.

(** [A ** 2], entry by entry. *)
Definition square (A : ndarray) : ndarray :=
  {| shape := shape A; data := map (fun x => mul x x) (data A) |}.

(** [v + eps] for a scalar [eps]. *)
Definition add_scalar (A : ndarray) (eps : F) : ndarray :=
  {| shape := shape A; data := map (fun x => add x eps) (data A) |}.

(** [np.sum(A)] without an axis: one scalar, the sum of every entry. *)
Definition np_sum (A : ndarray) : F := sum_list (data A).

(** [R[:, k]] on a two-axis array; one axis is too few for two indices. *)
Definition column (R : ndarray) (k : nat) : result ndarray :=
  match shape R with
  | [n; m] => if k <? m then Return (mk1 n (fun i => get2 R i k))
              else Raise IndexError
  | _ => Raise IndexError
  end.

(** [W[:, :, k]]: three indices need three axes; on fewer, numpy raises
    [IndexError] ("too many indices for array"). *)
Definition slice_last (W : ndarray) (k : nat) : result ndarray :=
  match shape W with
  | [a; b; c] => if k <? c then Return (mk2 a b (fun i j => get3 W i j k))
                 else Raise IndexError
  | _ => Raise IndexError
  end.

(** [W[:, :, k] = Wk] and [P[:, k] = p] (a scalar, broadcast down the
    column). *)
Definition set_slice_last (W : ndarray) (k : nat) (Wk : ndarray) : ndarray :=
  match shape W with
  | [a; b; c] =>
      mk3 a b c (fun i j k' => if k' =? k then get2 Wk i j else get3 W i j k')
  | _ => W
  end.

Definition set_column (P : ndarray) (k : nat) (p : F) : ndarray :=
  match shape P with
  | [a; c] => mk2 a c (fun i k' => if k' =? k then p else get2 P i k')
  | _ => P
  end.

(** [np.argmax] of one row: the first index holding the largest entry. *)
Fixpoint argmax_from (best_i : nat) (best : F) (i : nat) (l : list F) : nat :=
  match l with
  | [] => best_i
  | x :: l' =>
      if ltb best x then argmax_from i x (S i) l'
      else argmax_from best_i best (S i) l'
  end.

Definition argmax_row (l : list F) : nat :=
  match l with
  | [] => 0
  | x :: l' => argmax_from 0 x 1 l'
  end.

(** [np.argmax(R, axis=1)] on a two-axis array; an empty row has no
    largest entry. *)
Definition argmax_axis1 (R : ndarray) : result (list nat) :=
  match shape R with
  | [n; m] =>
      if m =? 0 then Raise ValueError
      else Return (tab n (fun i => argmax_row (tab m (get2 R i))))
  | _ => Raise ValueError
  end.

End NumPy.

Arguments ndarray F : clear implicits.

Section Estimator.

Context {F : Type} `{Scalar F}.

(** ** The scikit-learn collaborators *)

(** A fitted [GaussianMixture]: the mixture weights and its [predict_proba]
    method. *)
Record GaussianMixture : Type := {
  weights_ : list F;
  predict_proba : ndarray F -> result (ndarray F)
}.

(** The keyword arguments of the [GaussianMixture] constructor the module
    could set. *)
Record GMMParams : Type := {
  gp_n_components : nat;
  gp_covariance_type : string;
  gp_n_init : nat;
  gp_random_state : option nat
}.

(** [GMM(n_components=..., n_init=..., random_state=...)], the call [fit]
    makes.  A keyword that is not passed keeps scikit-learn's default, which
    for [covariance_type] is ['full']. *)
Definition GMM (n_components n_init : nat) (random_state : option nat)
  : GMMParams :=
  {| gp_n_components := n_components;
     gp_covariance_type := "full";
     gp_n_init := n_init;
     gp_random_state := random_state |}.

(** A fitted [Ridge]: [intercept_] and [coef_]. *)
Record RidgeModel : Type := {
  intercept_ : ndarray F;
  coef_ : ndarray F
}.

(** The three entry points into scikit-learn.  [GaussianMixture_fit p X] is
    [fit(X)] on a mixture constructed with the keywords [p], [Ridge_fit alpha X y w] is
    [Ridge(alpha=alpha).fit(X, y, sample_weight=w)], and [r2_score y targets]
    receives whatever [predict] returned, [None] included. *)
Class Sklearn : Type := {
  GaussianMixture_fit : GMMParams -> ndarray F -> result GaussianMixture;
  Ridge_fit : F -> ndarray F -> ndarray F -> ndarray F -> result RidgeModel;
  r2_score : ndarray F -> option (ndarray F) -> result F
}.

Context `{Sklearn}.

(** ** The estimator object *)

(** The attributes of a [GMMRegressor].  The first six are set by
    [__init__]; the others exist only once a method has assigned them, and
    reading one that does not exist raises [AttributeError]. *)
Record GMMRegressor : Type := {
  n_components : nat;
  alpha : F;
  covariance_type : string;
  n_init : nat;
  verbose : nat;
  random_state : option nat;
  is_fitted_ : option bool;
  n_tasks_ : option nat;
  n_input_dims_ : option nat;
  resp_tr_ : option (ndarray F);
  labels_tr_ : option (list nat);
  reg_weights_ : option (ndarray F);
  reg_precisions_ : option (ndarray F);
  gmm_ : option GaussianMixture;
  resp_tst_ : option (ndarray F);
  labels_tst_ : option (list nat)
}.

Definition set_is_fitted_ (v : option bool) (self : GMMRegressor) : GMMRegressor :=
  {| n_components := n_components self;
     alpha := alpha self;
     covariance_type := covariance_type self;
     n_init := n_init self;
     verbose := verbose self;
     random_state := random_state self;
     is_fitted_ := v;
     n_tasks_ := n_tasks_ self;
     n_input_dims_ := n_input_dims_ self;
     resp_tr_ := resp_tr_ self;
     labels_tr_ := labels_tr_ self;
     reg_weights_ := reg_weights_ self;
     reg_precisions_ := reg_precisions_ self;
     gmm_ := gmm_ self;
     resp_tst_ := resp_tst_ self;
     labels_tst_ := labels_tst_ self |}.

Definition set_n_tasks_ (v : option nat) (self : GMMRegressor) : GMMRegressor :=
  {| n_components := n_components self;
     alpha := alpha self;
     covariance_type := covariance_type self;
     n_init := n_init self;
     verbose := verbose self;
     random_state := random_state self;
     is_fitted_ := is_fitted_ self;
     n_tasks_ := v;
     n_input_dims_ := n_input_dims_ self;
     resp_tr_ := resp_tr_ self;
     labels_tr_ := labels_tr_ self;
     reg_weights_ := reg_weights_ self;
     reg_precisions_ := reg_precisions_ self;
     gmm_ := gmm_ self;
     resp_tst_ := resp_tst_ self;
     labels_tst_ := labels_tst_ self |}.

Definition set_n_input_dims_ (v : option nat) (self : GMMRegressor) : GMMRegressor :=
  {| n_components := n_components self;
     alpha := alpha self;
     covariance_type := covariance_type self;
     n_init := n_init self;
     verbose := verbose self;
     random_state := random_state self;
     is_fitted_ := is_fitted_ self;
     n_tasks_ := n_tasks_ self;
     n_input_dims_ := v;
     resp_tr_ := resp_tr_ self;
     labels_tr_ := labels_tr_ self;
     reg_weights_ := reg_weights_ self;
     reg_precisions_ := reg_precisions_ self;
     gmm_ := gmm_ self;
     resp_tst_ := resp_tst_ self;
     labels_tst_ := labels_tst_ self |}.

Definition set_resp_tr_ (v : option (ndarray F)) (self : GMMRegressor) : GMMRegressor :=
  {| n_components := n_components self;
     alpha := alpha self;
     covariance_type := covariance_type self;
     n_init := n_init self;
     verbose := verbose self;
     random_state := random_state self;
     is_fitted_ := is_fitted_ self;
     n_tasks_ := n_tasks_ self;
     n_input_dims_ := n_input_dims_ self;
     resp_tr_ := v;
     labels_tr_ := labels_tr_ self;
     reg_weights_ := reg_weights_ self;
     reg_precisions_ := reg_precisions_ self;
     gmm_ := gmm_ self;
     resp_tst_ := resp_tst_ self;
     labels_tst_ := labels_tst_ self |}.

Definition set_labels_tr_ (v : option (list nat)) (self : GMMRegressor) : GMMRegressor :=
  {| n_components := n_components self;
     alpha := alpha self;
     covariance_type := covariance_type self;
     n_init := n_init self;
     verbose := verbose self;
     random_state := random_state self;
     is_fitted_ := is_fitted_ self;
     n_tasks_ := n_tasks_ self;
     n_input_dims_ := n_input_dims_ self;
     resp_tr_ := resp_tr_ self;
     labels_tr_ := v;
     reg_weights_ := reg_weights_ self;
     reg_precisions_ := reg_precisions_ self;
     gmm_ := gmm_ self;
     resp_tst_ := resp_tst_ self;
     labels_tst_ := labels_tst_ self |}.

Definition set_reg_weights_ (v : option (ndarray F)) (self : GMMRegressor) : GMMRegressor :=
  {| n_components := n_components self;
     alpha := alpha self;
     covariance_type := covariance_type self;
     n_init := n_init self;
     verbose := verbose self;
     random_state := random_state self;
     is_fitted_ := is_fitted_ self;
     n_tasks_ := n_tasks_ self;
     n_input_dims_ := n_input_dims_ self;
     resp_tr_ := resp_tr_ self;
     labels_tr_ := labels_tr_ self;
     reg_weights_ := v;
     reg_precisions_ := reg_precisions_ self;
     gmm_ := gmm_ self;
     resp_tst_ := resp_tst_ self;
     labels_tst_ := labels_tst_ self |}.

Definition set_reg_precisions_ (v : option (ndarray F)) (self : GMMRegressor) : GMMRegressor :=
  {| n_components := n_components self;
     alpha := alpha self;
     covariance_type := covariance_type self;
     n_init := n_init self;
     verbose := verbose self;
     random_state := random_state self;
     is_fitted_ := is_fitted_ self;
     n_tasks_ := n_tasks_ self;
     n_input_dims_ := n_input_dims_ self;
     resp_tr_ := resp_tr_ self;
     labels_tr_ := labels_tr_ self;
     reg_weights_ := reg_weights_ self;
     reg_precisions_ := v;
     gmm_ := gmm_ self;
     resp_tst_ := resp_tst_ self;
     labels_tst_ := labels_tst_ self |}.

Definition set_gmm_ (v : option GaussianMixture) (self : GMMRegressor) : GMMRegressor :=
  {| n_components := n_components self;
     alpha := alpha self;
     covariance_type := covariance_type self;
     n_init := n_init self;
     verbose := verbose self;
     random_state := random_state self;
     is_fitted_ := is_fitted_ self;
     n_tasks_ := n_tasks_ self;
     n_input_dims_ := n_input_dims_ self;
     resp_tr_ := resp_tr_ self;
     labels_tr_ := labels_tr_ self;
     reg_weights_ := reg_weights_ self;
     reg_precisions_ := reg_precisions_ self;
     gmm_ := v;
     resp_tst_ := resp_tst_ self;
     labels_tst_ := labels_tst_ self |}.

Definition set_resp_tst_ (v : option (ndarray F)) (self : GMMRegressor) : GMMRegressor :=
  {| n_components := n_components self;
     alpha := alpha self;
     covariance_type := covariance_type self;
     n_init := n_init self;
     verbose := verbose self;
     random_state := random_state self;
     is_fitted_ := is_fitted_ self;
     n_tasks_ := n_tasks_ self;
     n_input_dims_ := n_input_dims_ self;
     resp_tr_ := resp_tr_ self;
     labels_tr_ := labels_tr_ self;
     reg_weights_ := reg_weights_ self;
     reg_precisions_ := reg_precisions_ self;
     gmm_ := gmm_ self;
     resp_tst_ := v;
     labels_tst_ := labels_tst_ self |}.

Definition set_labels_tst_ (v : option (list nat)) (self : GMMRegressor) : GMMRegressor :=
  {| n_components := n_components self;
     alpha := alpha self;
     covariance_type := covariance_type self;
     n_init := n_init self;
     verbose := verbose self;
     random_state := random_state self;
     is_fitted_ := is_fitted_ self;
     n_tasks_ := n_tasks_ self;
     n_input_dims_ := n_input_dims_ self;
     resp_tr_ := resp_tr_ self;
     labels_tr_ := labels_tr_ self;
     reg_weights_ := reg_weights_ self;
     reg_precisions_ := reg_precisions_ self;
     gmm_ := gmm_ self;
     resp_tst_ := resp_tst_ self;
     labels_tst_ := v |}.

Definition set_covariance_type (v : string) (self : GMMRegressor) : GMMRegressor :=
  {| n_components := n_components self;
     alpha := alpha self;
     covariance_type := v;
     n_init := n_init self;
     verbose := verbose self;
     random_state := random_state self;
     is_fitted_ := is_fitted_ self;
     n_tasks_ := n_tasks_ self;
     n_input_dims_ := n_input_dims_ self;
     resp_tr_ := resp_tr_ self;
     labels_tr_ := labels_tr_ self;
     reg_weights_ := reg_weights_ self;
     reg_precisions_ := reg_precisions_ self;
     gmm_ := gmm_ self;
     resp_tst_ := resp_tst_ self;
     labels_tst_ := labels_tst_ self |}.

(** [GMMRegressor(...)]: the keyword defaults of [__init__] are
    [n_components=8, alpha=1, n_init=10, covariance_type='diag', verbose=0,
    random_state=None]. *)
Definition __init__ (n_components : nat) (alpha : F) (n_init : nat)
  (covariance_type : string) (verbose : nat) (random_state : option nat)
  : GMMRegressor :=
  {| n_components := n_components;
     alpha := alpha;
     covariance_type := covariance_type;
     n_init := n_init;
     verbose := verbose;
     random_state := random_state;
     is_fitted_ := None;
     n_tasks_ := None;
     n_input_dims_ := None;
     resp_tr_ := None;
     labels_tr_ := None;
     reg_weights_ := None;
     reg_precisions_ := None;
     gmm_ := None;
     resp_tst_ := None;
     labels_tst_ := None |}.

(** ** Methods as state transformers

    A method call maps the object to the object it leaves behind, the lines
    it printed and its outcome.  An exception keeps the attribute writes
    made before it was raised: Python has no rollback. *)
Definition M (A : Type) : Type :=
  GMMRegressor -> GMMRegressor * list string * result A.

Definition ret {A : Type} (a : A) : M A := fun self => (self, [], Return a).

Definition bind {A B : Type} (m : M A) (f : A -> M B) : M B :=
  fun self =>
    match m self with
    | (self1, out1, Return a) =>
        match f a self1 with
        | (self2, out2, r) => (self2, out1 ++ out2, r)
        end
    | (self1, out1, Raise e) => (self1, out1, Raise e)
    end.

Definition lift {A : Type} (r : result A) : M A := fun self => (self, [], r).

Definition raise {A : Type} (e : exception) : M A := lift (Raise e).

Definition print (line : string) : M unit :=
  fun self => (self, [line], Return tt).

(** [self.name] for an attribute assigned by a method. *)
Definition getattr {A : Type} (name : string)
  (field : GMMRegressor -> option A) : M A :=
  fun self =>
    match field self with
    | Some a => (self, [], Return a)
    | None => (self, [], Raise (AttributeError name))
    end.

(** [self.name] for an attribute assigned by [__init__]. *)
Definition getinit {A : Type} (field : GMMRegressor -> A) : M A :=
  fun self => (self, [], Return (field self)).

(** [self.name = v]. *)
Definition setattr (update : GMMRegressor -> GMMRegressor) : M unit :=
  fun self => (update self, [], Return tt).

(** [sys.exit(code)]. *)
Definition sys_exit {A : Type} (code : option nat) : M A :=
  raise (sys_exit_raises code).

Declare Scope py_scope.
Delimit Scope py_scope with py.
Notation "x <- m ;; k" := (bind m (fun x => k))
  (at level 61, m at next level, right associativity) : py_scope.
Notation "' p <- m ;; k" := (bind m (fun x => match x with p => k end))
  (at level 61, p pattern, m at next level, right associativity) : py_scope.
Notation "m ;; k" := (bind m (fun _ => k))
  (at level 61, right associativity) : py_scope.

(** ** [_estimate_regression_params_k] *)

(** [reg_weights_k[:, 0] = solver.intercept_] and
    [reg_weights_k[:, 1:] = solver.coef_] into a [t] by [d+1] array.  Fitted
    on a two-axis [y], scikit-learn's [Ridge] returns [intercept_] of shape
    [(t,)] and [coef_] of shape [(t, d)]; for other shapes the model rejects
    the assignment, as numpy does unless it can broadcast them. *)
Definition stack_weights (t d : nat) (solver : RidgeModel)
  : result (ndarray F) :=
  match shape (intercept_ solver), shape (coef_ solver) with
  | [t1], [t2; d2] =>
      if (t1 =? t) && (t2 =? t) && (d2 =? d)
      then Return (mk2 t (S d) (fun j l =>
             match l with
             | 0 => get1 (intercept_ solver) j
             | S l' => get2 (coef_ solver) j l'
             end))
      else Raise ValueError
  | _, _ => Raise ValueError
  end.

Definition _estimate_regression_params_k
  (X y resp_k : ndarray F) (alpha weight_k : F) : result (ndarray F * F) :=
  ('(n, d) <- shape2 X ;;
   '(_, t) <- shape2 y ;;
   let eps := mul (of_nat 10) finfo_eps in
   let X_ext := concat_ones n d X in
   solver <- Ridge_fit alpha X y (add_scalar resp_k eps) ;;
   reg_weights_k <- stack_weights t d solver ;;
   means <- dot X_ext (transpose reg_weights_k) ;;
   diff <- broadcast2 sub y means ;;
   let err := square diff in
   weighted <- broadcast2 mul (newaxis_col resp_k) err ;;
   let reg_precisions_k :=
     div (mul (of_nat n) weight_k) (np_sum weighted) in
   Return (reg_weights_k, reg_precisions_k))%result.

(** ** [GMMRegressor._check_data] *)

Definition _check_data (X y : ndarray F)
  : M (nat * nat * nat * ndarray F * ndarray F) :=
  (let y := if ndim y =? 1 then newaxis_col y else y in
   '(n_x, d) <- lift (shape2 X) ;;
   '(n_y, t) <- lift (shape2 y) ;;
   if n_x =? n_y
   then ret (t, n_x, d, X, y)
   else
     print "Data size error. Number of samples in X and y must match:" ;;
     print ("X n_samples = " ++ str_of_nat n_x ++
            ", y n_samples = " ++ str_of_nat n_y)%string ;;
     print "Exiting." ;;
     sys_exit None)%py.

(** ** [GMMRegressor.fit] *)

Definition index (l : list F) (k : nat) : result F :=
  match nth_error l k with
  | Some x => Return x
  | None => Raise IndexError
  end.

(** The body of [for k in range(self.n_components)] in [fit], over the
    values of [k] still to run. *)
Fixpoint fit_loop (X y resp_tr : ndarray F) (gmm : GaussianMixture)
  (alpha : F) (ks : list nat) (reg_weights reg_precisions : ndarray F)
  : result (ndarray F * ndarray F) :=
  match ks with
  | [] => Return (reg_weights, reg_precisions)
  | k :: ks' =>
      (resp_k <- column resp_tr k ;;
       weight_k <- index (weights_ gmm) k ;;
       '(W_k, p_k) <- _estimate_regression_params_k X y resp_k alpha weight_k ;;
       fit_loop X y resp_tr gmm alpha ks'
         (set_slice_last reg_weights k W_k)
         (set_column reg_precisions k p_k))%result
  end.

(** The assignment [eps = 10 * np.finfo(float).eps] of [fit] is left out:
    the method never reads [eps] again. *)
Definition fit (X y : ndarray F) : M unit :=
  (setattr (set_is_fitted_ (Some false)) ;;
   '(t, n, d, X, y) <- _check_data X y ;;
   K <- getinit n_components ;;
   n_init <- getinit n_init ;;
   random_state <- getinit random_state ;;
   gmm <- lift (GaussianMixture_fit (GMM K n_init random_state) X) ;;
   resp_tr <- lift (predict_proba gmm X) ;;
   labels_tr <- lift (argmax_axis1 resp_tr) ;;
   let reg_weights := empty3 t (S d) K in
   let reg_precisions := zeros2 t K in
   alpha <- getinit alpha ;;
   '(reg_weights, reg_precisions) <-
     lift (fit_loop X y resp_tr gmm alpha (seq 0 K) reg_weights reg_precisions) ;;
   setattr (set_n_tasks_ (Some t)) ;;
   setattr (set_n_input_dims_ (Some d)) ;;
   setattr (set_resp_tr_ (Some resp_tr)) ;;
   setattr (set_labels_tr_ (Some labels_tr)) ;;
   setattr (set_reg_weights_ (Some (squeeze reg_weights))) ;;
   setattr (set_reg_precisions_ (Some (squeeze reg_precisions))) ;;
   setattr (set_gmm_ (Some gmm)) ;;
   setattr (set_is_fitted_ (Some true)))%py.

(** ** [GMMRegressor.predict] *)

(** The body of [for k in range(self.n_components)] in [predict]. *)
Fixpoint predict_loop (X_ext reg_weights resp_tst : ndarray F)
  (ks : list nat) (targets : ndarray F) : result (ndarray F) :=
  match ks with
  | [] => Return targets
  | k :: ks' =>
      (W_k <- slice_last reg_weights k ;;
       dot_prod <- dot X_ext (transpose W_k) ;;
       resp_k <- column resp_tst k ;;
       weighted <- broadcast2 mul (newaxis_col resp_k) dot_prod ;;
       targets <- iadd2 targets weighted ;;
       predict_loop X_ext reg_weights resp_tst ks' targets)%result
  end.

(** [None] is Python's [None], what the bare [return] gives back. *)
Definition predict (X : ndarray F) : M (option (ndarray F)) :=
  (fitted <- getattr "is_fitted_" is_fitted_ ;;
   if negb fitted
   then print "Model isn't fitted." ;; ret None
   else
     '(n, d) <- lift (shape2 X) ;;
     n_input_dims <- getattr "n_input_dims_" n_input_dims_ ;;
     if negb (d =? n_input_dims)
     then print "Incorrect dimensions for input data." ;; sys_exit (Some 0)
     else
       n_tasks <- getattr "n_tasks_" n_tasks_ ;;
       stored <- getattr "reg_weights_" reg_weights_ ;;
       reg_weights <-
         lift (if n_tasks =? 1 then newaxis_front stored else Return stored) ;;
       gmm <- getattr "gmm_" gmm_ ;;
       resp_tst <- lift (predict_proba gmm X) ;;
       labels_tst <- lift (argmax_axis1 resp_tst) ;;
       let X_ext := concat_ones n d X in
       let targets := zeros2 n n_tasks in
       K <- getinit n_components ;;
       targets <-
         lift (predict_loop X_ext reg_weights resp_tst (seq 0 K) targets) ;;
       setattr (set_resp_tst_ (Some resp_tst)) ;;
       setattr (set_labels_tst_ (Some labels_tst)) ;;
       ret (Some targets))%py.

(** ** [GMMRegressor.score] *)

Definition score (X y : ndarray F) : M F :=
  (targets <- predict X ;;
   lift (r2_score y targets))%py.

End Estimator.

Arguments GaussianMixture F : clear implicits.
Arguments GMMParams : clear implicits.
Arguments RidgeModel F : clear implicits.
Arguments Sklearn F : clear implicits.
Arguments GMMRegressor F : clear implicits.

(** ** The claim of the specification about the precision, in its words

    "Precision = n * cluster_prior_weight / sum_i(responsibility_i * e_i^2)",
    one value per task: [e] holds the residuals [y - prediction] of that
    task's column. *)
Definition precision_per_task {F : Type} `{Scalar F}
  (n : nat) (cluster_prior_weight : F) (responsibility e : list F) : F :=
  div (mul (of_nat n) cluster_prior_weight)
      (sum_list (map (fun re => mul (fst re) (mul (snd re) (snd re)))
                     (combine responsibility e))).

(** ** Notions used in the statements *)

Section Notions.

Context {F : Type} `{Scalar F}.

(** [y[:, np.newaxis]] when [y] has one axis, [y] itself otherwise: the
    target array after the first statement of [_check_data]. *)
Definition as_columns (y : ndarray F) : ndarray F :=
  if ndim y =? 1 then newaxis_col y else y.

(** The three lines [_check_data] prints when the sample counts differ. *)
Definition size_error_lines (n_x n_y : nat) : list string :=
  ["Data size error. Number of samples in X and y must match:";
   ("X n_samples = " ++ str_of_nat n_x ++
    ", y n_samples = " ++ str_of_nat n_y)%string;
   "Exiting."].

(** The object after the eight assignments that close [fit], made on the
    object whose flag the first statement of [fit] had lowered. *)
Definition stored (t d : nat) (resp_tr : ndarray F) (labels_tr : list nat)
  (reg_weights reg_precisions : ndarray F) (gmm : GaussianMixture F)
  (self : GMMRegressor F) : GMMRegressor F :=
  set_is_fitted_ (Some true)
    (set_gmm_ (Some gmm)
      (set_reg_precisions_ (Some (squeeze reg_precisions))
        (set_reg_weights_ (Some (squeeze reg_weights))
          (set_labels_tr_ (Some labels_tr)
            (set_resp_tr_ (Some resp_tr)
              (set_n_input_dims_ (Some d)
                (set_n_tasks_ (Some t)
                  (set_is_fitted_ (Some false) self)))))))).

(** The object after the two assignments that close [predict]. *)
Definition cached (resp_tst : ndarray F) (labels_tst : list nat)
  (self : GMMRegressor F) : GMMRegressor F :=
  set_labels_tst_ (Some labels_tst) (set_resp_tst_ (Some resp_tst) self).

(** What [predict] reads to compute its targets: the fitted model. *)
Definition same_model (a b : GMMRegressor F) : Prop :=
  gmm_ a = gmm_ b /\
  reg_weights_ a = reg_weights_ b /\
  reg_precisions_ a = reg_precisions_ b /\
  n_tasks_ a = n_tasks_ b /\
  n_input_dims_ a = n_input_dims_ b /\
  is_fitted_ a = is_fitted_ b /\
  resp_tr_ a = resp_tr_ b /\
  labels_tr_ a = labels_tr_ b.

(** The responsibilities the stored mixture gives for [X], when there is a
    stored mixture and it returns them. *)
Definition predict_proba_of (self : GMMRegressor F) (X : ndarray F)
  : option (ndarray F) :=
  match gmm_ self with
  | Some gmm =>
      match predict_proba gmm X with
      | Return R => Some R
      | Raise _ => None
      end
  | None => None
  end.

(** A model as [fit] leaves it: [t] tasks, [d] features, [K] components,
    the weight tensor [W] of shape [(t, d+1, K)] stored squeezed, and the
    mixture [g]. *)
Definition Fitted (t d K : nat) (W : ndarray F) (g : GaussianMixture F)
  (self : GMMRegressor F) : Prop :=
  is_fitted_ self = Some true /\
  n_tasks_ self = Some t /\
  n_input_dims_ self = Some d /\
  reg_weights_ self = Some (squeeze W) /\
  shape W = [t; S d; K] /\
  gmm_ self = Some g /\
  n_components self = K.

(** The prediction of component [k] for sample [i] and task [j] the way
    [predict] computes it: row [i] of [X] extended by a leading one, times
    the weights of task [j] and component [k]. *)
Definition component_dot (n d : nat) (X W : ndarray F) (i j k : nat) : F :=
  sum_list (tab (S d) (fun l =>
    mul (get2 (concat_ones n d X) i l) (get3 W j l k))).

(** The same prediction in the words of the specification:
    [bias_k + X . coefficients_k]. *)
Definition component_affine (d : nat) (X W : ndarray F) (i j k : nat) : F :=
  add (get3 W j 0 k)
      (sum_list (tab d (fun l => mul (get2 X i l) (get3 W j (S l) k)))).

(** The value one component's regression gives sample [i] for task [j]:
    row [i] of [X] extended by a leading one, times row [j] of the
    component's weights [W_k] (shape [(t, d+1)]); and the squared residual
    of that sample and task. *)
Definition fitted_value (n d : nat) (X W_k : ndarray F) (i j : nat) : F :=
  sum_list (tab (S d) (fun l =>
    mul (get2 (concat_ones n d X) i l) (get2 W_k j l))).

Definition squared_residual (n d : nat) (X y W_k : ndarray F) (i j : nat)
  : F :=
  let e := sub (get2 y i j) (fitted_value n d X W_k i j) in
  mul e e.

(** The accumulation over the [K] components, weighted by the
    responsibilities [R]. *)
Definition blend (K : nat) (R : ndarray F) (component : nat -> nat -> nat -> F)
  (i j : nat) : F :=
  fold_left (fun acc k => add acc (mul (get2 R i k) (component i j k)))
            (seq 0 K) zero.

Context `{Sklearn F}.

(** One pass of the loop of [fit] up to the assignment: the responsibility
    column and the prior weight of component [k], then its regression. *)
Definition component_solve (X y R : ndarray F) (g : GaussianMixture F)
  (alpha : F) (k : nat) : result (ndarray F * F) :=
  (resp_k <- column R k ;;
   weight_k <- index (weights_ g) k ;;
   _estimate_regression_params_k X y resp_k alpha weight_k)%result.

(** The solver honours its contract for component [k]: fitted on [X], [y]
    ([t] tasks) with the floored responsibilities of column [k] as sample
    weights, it returns an intercept per task and [d] coefficients per
    task. *)
Definition solver_returns (X y R : ndarray F) (alpha : F) (n d t k : nat)
  : Prop :=
  exists s,
    Ridge_fit alpha X y
      (add_scalar (mk1 n (fun i => get2 R i k)) (mul (of_nat 10) finfo_eps)) =
      Return s /\
    shape (intercept_ s) = [t] /\ shape (coef_ s) = [t; d].

End Notions.

(** ** An executable instance

    Exact rational arithmetic and small stand-ins for the scikit-learn
    estimators, to run the methods on concrete data.  Every result is
    reduced to lowest terms so that equal rationals are equal terms. *)
Module Exact.

#[global] Instance Q_Scalar : Scalar Q := {
  zero := 0%Q;
  one := 1%Q;
  add := fun a b => Qred (a + b);
  sub := fun a b => Qred (a - b);
  mul := fun a b => Qred (a * b);
  div := fun a b => Qred (a / b);
  of_nat := fun n => inject_Z (Z.of_nat n);
  ltb := fun a b => match (a ?= b)%Q with Lt => true | _ => false end;
  finfo_eps := (1 # 4503599627370496)%Q
}.

(** A mixture whose components coincide: every sample belongs to each of
    the [K] components with probability [1/K], and the weights are [1/K].
    Like scikit-learn it rejects an empty feature axis and fewer samples
    than components. *)
Definition uniform_mixture (K d : nat) : GaussianMixture Q :=
  {| weights_ := repeat (div one (of_nat K)) K;
     predict_proba := fun X =>
       match shape X with
       | [n; d'] =>
           if (d' =? d) && (1 <=? n)
           then Return (mk2 n K (fun _ _ => div one (of_nat K)))
           else Raise ValueError
       | _ => Raise ValueError
       end |}.

Definition uniform_mixture_fit (p : GMMParams) (X : ndarray Q)
  : result (GaussianMixture Q) :=
  match shape X with
  | [n; d] =>
      if (1 <=? gp_n_components p) && (gp_n_components p <=? n) && (1 <=? d)
      then Return (uniform_mixture (gp_n_components p) d)
      else Raise ValueError
  | _ => Raise ValueError
  end.

(** The weighted mean of every target column as intercept and zero
    coefficients: the ridge optimum whenever every feature column is
    constant, which is the case in the data below. *)
Definition mean_ridge_fit (alpha : Q) (X y w : ndarray Q)
  : result (RidgeModel Q) :=
  match shape X, shape y, shape w with
  | [n; d], [n1; t], [n2] =>
      if (n1 =? n) && (n2 =? n)
      then Return
        {| intercept_ := mk1 t (fun j =>
             div (sum_list (tab n (fun i => mul (get1 w i) (get2 y i j))))
                 (sum_list (data w)));
           coef_ := mk2 t d (fun _ _ => zero) |}
      else Raise ValueError
  | _, _, _ => Raise ValueError
  end.

(** The coefficient of determination over all entries; [None] in place of
    the predictions is rejected. *)
Definition flat_r2_score (y : ndarray Q) (targets : option (ndarray Q))
  : result Q :=
  match targets with
  | None => Raise ValueError
  | Some T =>
      if List.length (data y) =? List.length (data T)
      then
        let n := List.length (data y) in
        let mean := div (sum_list (data y)) (of_nat n) in
        let ss_res := sum_list (map (fun p => mul (sub (fst p) (snd p))
                                                  (sub (fst p) (snd p)))
                                    (combine (data y) (data T))) in
        let ss_tot := sum_list (map (fun a => mul (sub a mean) (sub a mean))
                                    (data y)) in
        Return (sub one (div ss_res ss_tot))
      else Raise ValueError
  end.

#[global] Instance toy_sklearn : Sklearn Q := {
  GaussianMixture_fit := uniform_mixture_fit;
  Ridge_fit := mean_ridge_fit;
  r2_score := flat_r2_score
}.

(** Two samples of one constant feature. *)
Definition X2 : ndarray Q := {| shape := [2; 1]; data := [0; 0]%Q |}.

(** One target, given as a vector. *)
Definition y2 : ndarray Q := {| shape := [2]; data := [3; 1]%Q |}.

(** Two targets per sample. *)
Definition y2x2 : ndarray Q :=
  {| shape := [2; 2]; data := [3; 5; 1; -1]%Q |}.

(** Three targets: one sample more than [X2] has. *)
Definition y3 : ndarray Q := {| shape := [3]; data := [3; 2; 1]%Q |}.

(** Two samples of two features. *)
Definition X2x2 : ndarray Q := {| shape := [2; 2]; data := [0; 0; 0; 0]%Q |}.

(** [GMMRegressor(n_components=K)], the other keywords at their defaults. *)
Definition regressor (K : nat) : GMMRegressor Q :=
  __init__ K 1%Q 10 "diag" 0 None.

(** The object a method call leaves behind, its output and its outcome. *)
Definition after {A : Type}
  (call : GMMRegressor Q * list string * result A) : GMMRegressor Q :=
  fst (fst call).

Definition printed {A : Type}
  (call : GMMRegressor Q * list string * result A) : list string :=
  snd (fst call).

Definition outcome {A : Type}
  (call : GMMRegressor Q * list string * result A) : result A :=
  snd call.

(** Fitted on [X2], [y2] with two components. *)
Definition fitted2 : GMMRegressor Q := after (fit X2 y2 (regressor 2)).

(** Fitted on [X2], [y2] with one component. *)
Definition fitted1 : GMMRegressor Q := after (fit X2 y2 (regressor 1)).

(** Fitted on [X2] and the two targets of [y2x2] with two components. *)
Definition fitted2x2 : GMMRegressor Q := after (fit X2 y2x2 (regressor 2)).

(** The weight tensor [fit] computes on [X2], [y2] with two components,
    before it is squeezed. *)
Definition W2 : ndarray Q :=
  {| shape := [1; 2; 2]; data := [2; 2; 0; 0]%Q |}.

(** The responsibilities of two samples under [uniform_mixture 2]. *)
Definition R2 : ndarray Q := mk2 2 2 (fun _ _ => div one (of_nat 2)).

(** A first [fit] that failed: [y3] has one sample more than [X2]. *)
Definition unfitted : GMMRegressor Q := after (fit X2 y3 (regressor 2)).

(** [fitted2] after a second [fit], which failed the same way. *)
Definition refit_failed : GMMRegressor Q := after (fit X2 y3 fitted2).

End Exact.


(** ** Rationals in lowest terms

    [Qc] keeps every rational in lowest terms, so that equal numbers are
    equal terms and the laws of exact arithmetic hold as equalities. *)
Module Rational.

#[global] Instance Qc_Scalar : Scalar Qc := {
  zero := Q2Qc 0;
  one := Q2Qc 1;
  add := Qcplus;
  sub := Qcminus;
  mul := Qcmult;
  div := Qcdiv;
  of_nat := fun n => Q2Qc (inject_Z (Z.of_nat n));
  ltb := fun a b => match (a ?= b)%Qc with Lt => true | _ => false end;
  finfo_eps := Q2Qc (1 # 4503599627370496)
}.

Definition half : Qc := Q2Qc (1 # 2).

(** One task, one feature, two components: biases [1] and [3], slopes [2]
    and [0]. *)
Definition W : ndarray Qc :=
  {| shape := [1; 2; 2];
     data := [Q2Qc 1; Q2Qc 3; Q2Qc 2; Q2Qc 0] |}.

(** A mixture that gives every sample to both components in equal
    parts. *)
Definition mixture : GaussianMixture Qc :=
  {| weights_ := [half; half];
     predict_proba := fun X =>
       match shape X with
       | [n; _] => Return (mk2 n 2 (fun _ _ => half))
       | _ => Raise ValueError
       end |}.

(** A fitted model assembled from these: the attributes [predict] reads. *)
Definition model : GMMRegressor Qc :=
  {| n_components := 2;
     alpha := Q2Qc 1;
     covariance_type := "diag";
     n_init := 10;
     verbose := 0;
     random_state := None;
     is_fitted_ := Some true;
     n_tasks_ := Some 1;
     n_input_dims_ := Some 1;
     resp_tr_ := None;
     labels_tr_ := None;
     reg_weights_ := Some (squeeze W);
     reg_precisions_ := None;
     gmm_ := Some mixture;
     resp_tst_ := None;
     labels_tst_ := None |}.

(** Two samples, at [0] and at [1]. *)
Definition X : ndarray Qc :=
  {| shape := [2; 1]; data := [Q2Qc 0; Q2Qc 1] |}.

End Rational.

(** * Properties *)

(** ** Arrays *)

Section ArrayFacts.

Context {F : Type} `{Scalar F}.

Lemma tab_length {A : Type} (n : nat) (f : nat -> A) :
  List.length (tab n f) = n.
Proof. unfold tab. now rewrite length_map, length_seq. Qed.

Lemma nth_tab {A : Type} (n : nat) (f : nat -> A) (i : nat) (dflt : A) :
  i < n -> nth i (tab n f) dflt = f i.
Proof.
  intros Hi. unfold tab.
  rewrite (nth_indep _ dflt (f 0)) by now rewrite length_map, length_seq.
  rewrite map_nth, seq_nth; auto.
Qed.

Lemma tab_ext {A : Type} (n : nat) (f g : nat -> A) :
  (forall i, i < n -> f i = g i) -> tab n f = tab n g.
Proof.
  intros Hfg. unfold tab. apply map_ext_in.
  intros i Hi. apply in_seq in Hi. apply Hfg. lia.
Qed.

Lemma tab_S {A : Type} (n : nat) (f : nat -> A) :
  tab (S n) f = f 0 :: tab n (fun i => f (S i)).
Proof.
  unfold tab. cbn [seq map]. f_equal.
  rewrite <- seq_shift, map_map. reflexivity.
Qed.

(** Row-major addressing: entry [j] of row [i] sits at [i * m + j]. *)
Lemma nth_concat_rows {A : Type} (m : nat) (rows : list (list A)) (dflt : A) :
  (forall r, In r rows -> List.length r = m) ->
  forall i j, i < List.length rows -> j < m ->
  nth (i * m + j) (List.concat rows) dflt = nth j (nth i rows []) dflt.
Proof.
  induction rows as [|r rows IH]; intros Hlen i j Hi Hj; cbn in Hi; [lia|].
  cbn [List.concat]. destruct i as [|i].
  - cbn. rewrite app_nth1; auto. rewrite (Hlen r); cbn; auto.
  - replace (S i * m + j) with (List.length r + (i * m + j))
      by (rewrite (Hlen r); cbn; auto; lia).
    rewrite app_nth2_plus. cbn [nth]. apply IH; auto with arith.
    intros r' Hr'. apply Hlen. now right.
Qed.

Lemma nth_concat_tab (n m : nat) (f : nat -> nat -> F) (i j : nat) (dflt : F) :
  i < n -> j < m ->
  nth (i * m + j) (List.concat (tab n (fun i => tab m (f i)))) dflt = f i j.
Proof.
  intros Hi Hj. rewrite nth_concat_rows.
  - rewrite nth_tab by assumption. now apply nth_tab.
  - intros r Hr. unfold tab in Hr. apply in_map_iff in Hr.
    destruct Hr as [x [<- _]]. apply tab_length.
  - now rewrite tab_length.
  - assumption.
Qed.

Lemma get1_mk1 (n : nat) (f : nat -> F) (i : nat) :
  i < n -> get1 (mk1 n f) i = f i.
Proof. intros Hi. unfold get1, mk1. cbn. now apply nth_tab. Qed.

Lemma get2_mk2 (n m : nat) (f : nat -> nat -> F) (i j : nat) :
  i < n -> j < m -> get2 (mk2 n m f) i j = f i j.
Proof. intros Hi Hj. unfold get2, mk2. cbn. now apply nth_concat_tab. Qed.

Lemma get3_mk3 (a b c : nat) (f : nat -> nat -> nat -> F) (i j k : nat) :
  i < a -> j < b -> k < c -> get3 (mk3 a b c f) i j k = f i j k.
Proof.
  intros Hi Hj Hk. unfold get3, mk3. cbn [shape data].
  rewrite (nth_concat_tab (a * b) c (fun ij => f (ij / b) (ij mod b))); auto.
  - replace ((i * b + j) / b) with i
      by (rewrite Nat.div_add_l, Nat.div_small by lia; lia).
    replace ((i * b + j) mod b) with j
      by (rewrite Nat.add_comm, Nat.Div0.mod_add, Nat.mod_small by lia; lia).
    reflexivity.
  - nia.
Qed.

Lemma mk2_ext (n m : nat) (f g : nat -> nat -> F) :
  (forall i j, i < n -> j < m -> f i j = g i j) -> mk2 n m f = mk2 n m g.
Proof.
  intros Hfg. unfold mk2. f_equal. f_equal.
  apply tab_ext. intros i Hi. apply tab_ext. intros j Hj. now apply Hfg.
Qed.

Lemma bidx_lt (a i : nat) : i < a -> bidx a i = i.
Proof.
  intros Hi. unfold bidx. destruct (Nat.eqb_spec a 1); lia.
Qed.

Lemma bdim_refl (a : nat) : bdim a a = Some a.
Proof. unfold bdim. now rewrite Nat.eqb_refl. Qed.

Lemma bdim_1_l (a : nat) : bdim 1 a = Some a.
Proof.
  unfold bdim. destruct (Nat.eqb_spec 1 a); [now subst|reflexivity].
Qed.

(** [v[:, np.newaxis]] of a vector read as a one-column array. *)
Lemma get2_newaxis_col_mk1 (n : nat) (f : nat -> F) (i : nat) :
  i < n -> get2 (newaxis_col (mk1 n f)) i 0 = f i.
Proof.
  intros Hi. unfold get2, newaxis_col, mk1. cbn.
  rewrite Nat.mul_1_r, Nat.add_0_r. now apply nth_tab.
Qed.

Lemma square_mk2 (n m : nat) (f : nat -> nat -> F) :
  square (mk2 n m f) = mk2 n m (fun i j => mul (f i j) (f i j)).
Proof.
  unfold square, mk2, tab. cbn [shape data]. f_equal.
  rewrite concat_map, map_map. f_equal.
  apply map_ext. intros i. now rewrite map_map.
Qed.

End ArrayFacts.

(** ** The methods *)

Section MethodFacts.

Context {F : Type} `{Scalar F} `{Sklearn F}.

(** *** The monad, one step at a time *)

Lemma bind_ret {A B : Type} (a : A) (f : A -> M B) (self : GMMRegressor F) :
  bind (ret a) f self = f a self.
Proof. unfold bind, ret. now destruct (f a self) as [[s o] r]. Qed.

Lemma bind_lift {A B : Type} (r : result A) (f : A -> M B)
  (self : GMMRegressor F) :
  bind (lift r) f self =
  match r with
  | Return a => f a self
  | Raise e => (self, [], Raise e)
  end.
Proof.
  unfold bind, lift. destruct r as [a|e]; [|reflexivity].
  now destruct (f a self) as [[s o] r].
Qed.

Lemma bind_getinit {A B : Type} (field : GMMRegressor F -> A) (f : A -> M B)
  (self : GMMRegressor F) :
  bind (getinit field) f self = f (field self) self.
Proof. unfold bind, getinit. now destruct (f (field self) self) as [[s o] r]. Qed.

Lemma bind_getattr {A B : Type} (name : string)
  (field : GMMRegressor F -> option A) (f : A -> M B) (self : GMMRegressor F) :
  bind (getattr name field) f self =
  match field self with
  | Some a => f a self
  | None => (self, [], Raise (AttributeError name))
  end.
Proof.
  unfold bind, getattr. destruct (field self) as [a|]; [|reflexivity].
  now destruct (f a self) as [[s o] r].
Qed.

Lemma bind_setattr {B : Type} (update : GMMRegressor F -> GMMRegressor F)
  (f : unit -> M B) (self : GMMRegressor F) :
  bind (setattr update) f self = f tt (update self).
Proof. unfold bind, setattr. now destruct (f tt (update self)) as [[s o] r]. Qed.

Lemma bind_print {B : Type} (line : string) (f : unit -> M B)
  (self : GMMRegressor F) :
  bind (print line) f self =
  match f tt self with
  | (self', out, r) => (self', line :: out, r)
  end.
Proof. unfold bind, print. now destruct (f tt self) as [[s o] r]. Qed.

Lemma run_nil {A : Type} (x : GMMRegressor F * list string * result A) :
  (let (p, r) := x in let (s, o) := p in (s, [] ++ o, r)) = x.
Proof. now destruct x as [[s o] r]. Qed.

Ltac py_step :=
  first [ rewrite bind_setattr | rewrite bind_getinit | rewrite bind_getattr
        | rewrite bind_lift | rewrite bind_print | rewrite bind_ret ];
  cbv beta.

(** *** The methods in normal form

    Each method is a cascade of case distinctions on what its steps
    return; the state it leaves is [self] with a fixed set of assignments. *)

Lemma check_data_eq (X y : ndarray F) (self : GMMRegressor F) :
  _check_data X y self =
  match shape2 X with
  | Raise e => (self, [], Raise e)
  | Return (n_x, d) =>
      match shape2 (as_columns y) with
      | Raise e => (self, [], Raise e)
      | Return (n_y, t) =>
          if n_x =? n_y
          then (self, [], Return (t, n_x, d, X, as_columns y))
          else (self, size_error_lines n_x n_y,
                Raise (sys_exit_raises None))
      end
  end.
Proof.
  unfold _check_data. fold (as_columns y).
  py_step. destruct (shape2 X) as [[n_x d]|e]; [|reflexivity].
  py_step. destruct (shape2 (as_columns y)) as [[n_y t]|e]; [|reflexivity].
  destruct (n_x =? n_y); [reflexivity|].
  repeat py_step. reflexivity.
Qed.

Lemma fit_eq (X y : ndarray F) (self : GMMRegressor F) :
  fit X y self =
  let lowered := set_is_fitted_ (Some false) self in
  let K := n_components self in
  match shape2 X with
  | Raise e => (lowered, [], Raise e)
  | Return (n_x, d) =>
  match shape2 (as_columns y) with
  | Raise e => (lowered, [], Raise e)
  | Return (n_y, t) =>
  if n_x =? n_y then
    match GaussianMixture_fit (GMM K (n_init self) (random_state self)) X with
    | Raise e => (lowered, [], Raise e)
    | Return gmm =>
    match predict_proba gmm X with
    | Raise e => (lowered, [], Raise e)
    | Return resp_tr =>
    match argmax_axis1 resp_tr with
    | Raise e => (lowered, [], Raise e)
    | Return labels_tr =>
    match fit_loop X (as_columns y) resp_tr gmm (alpha self) (seq 0 K)
            (empty3 t (S d) K) (zeros2 t K) with
    | Raise e => (lowered, [], Raise e)
    | Return (W, P) =>
        (stored t d resp_tr labels_tr W P gmm self, [], Return tt)
    end end end end
  else (lowered, size_error_lines n_x n_y, Raise (sys_exit_raises None))
  end end.
Proof.
  unfold fit. py_step. unfold bind at 1. rewrite check_data_eq. cbv zeta.
  destruct (shape2 X) as [[n_x d]|e]; [|reflexivity].
  destruct (shape2 (as_columns y)) as [[n_y t]|e]; [|reflexivity].
  destruct (n_x =? n_y); [|reflexivity].
  rewrite run_nil. repeat py_step. cbn [n_components n_init random_state alpha set_is_fitted_].
  destruct (GaussianMixture_fit _ X) as [gmm|e]; [|reflexivity].
  py_step. destruct (predict_proba gmm X) as [resp_tr|e]; [|reflexivity].
  py_step. destruct (argmax_axis1 resp_tr) as [labels_tr|e]; [|reflexivity].
  repeat py_step. cbn [n_components n_init random_state alpha set_is_fitted_].
  destruct (fit_loop _ _ _ _ _ _ _ _) as [[W P]|e]; [|reflexivity].
  repeat py_step. reflexivity.
Qed.

Lemma predict_eq (X : ndarray F) (self : GMMRegressor F) :
  predict X self =
  match is_fitted_ self with
  | None => (self, [], Raise (AttributeError "is_fitted_"))
  | Some false => (self, ["Model isn't fitted."], Return None)
  | Some true =>
  match shape2 X with
  | Raise e => (self, [], Raise e)
  | Return (n, d) =>
  match n_input_dims_ self with
  | None => (self, [], Raise (AttributeError "n_input_dims_"))
  | Some n_input_dims =>
  if d =? n_input_dims then
    match n_tasks_ self with
    | None => (self, [], Raise (AttributeError "n_tasks_"))
    | Some n_tasks =>
    match reg_weights_ self with
    | None => (self, [], Raise (AttributeError "reg_weights_"))
    | Some W0 =>
    match (if n_tasks =? 1 then newaxis_front W0 else Return W0) with
    | Raise e => (self, [], Raise e)
    | Return reg_weights =>
    match gmm_ self with
    | None => (self, [], Raise (AttributeError "gmm_"))
    | Some gmm =>
    match predict_proba gmm X with
    | Raise e => (self, [], Raise e)
    | Return resp_tst =>
    match argmax_axis1 resp_tst with
    | Raise e => (self, [], Raise e)
    | Return labels_tst =>
    match predict_loop (concat_ones n d X) reg_weights resp_tst
            (seq 0 (n_components self)) (zeros2 n n_tasks) with
    | Raise e => (self, [], Raise e)
    | Return targets =>
        (cached resp_tst labels_tst self, [], Return (Some targets))
    end end end end end end end
  else (self, ["Incorrect dimensions for input data."],
        Raise (sys_exit_raises (Some 0)))
  end end end.
Proof.
  unfold predict. py_step.
  destruct (is_fitted_ self) as [[|]|]; cbn [negb]; [| |reflexivity].
  2: { repeat py_step. reflexivity. }
  py_step. destruct (shape2 X) as [[n d]|e]; [|reflexivity].
  py_step. destruct (n_input_dims_ self) as [d0|]; [|reflexivity].
  destruct (d =? d0); cbn [negb].
  2: { repeat py_step. reflexivity. }
  py_step. destruct (n_tasks_ self) as [t|]; [|reflexivity].
  py_step. destruct (reg_weights_ self) as [W0|]; [|reflexivity].
  py_step. destruct (if t =? 1 then newaxis_front W0 else Return W0)
    as [W|e]; [|reflexivity].
  py_step. destruct (gmm_ self) as [g|]; [|reflexivity].
  py_step. destruct (predict_proba g X) as [R|e]; [|reflexivity].
  py_step. destruct (argmax_axis1 R) as [L|e]; [|reflexivity].
  repeat py_step.
  destruct (predict_loop _ _ _ _ _) as [T|e]; [|reflexivity].
  repeat py_step. reflexivity.
Qed.

(** *** What [predict] leaves behind *)

Lemma cached_cached (R R' : ndarray F) (L L' : list nat)
  (self : GMMRegressor F) :
  cached R L (cached R' L' self) = cached R L self.
Proof. reflexivity. Qed.

Lemma same_model_refl (self : GMMRegressor F) : same_model self self.
Proof. repeat split. Qed.

Lemma same_model_cached (R : ndarray F) (L : list nat)
  (self : GMMRegressor F) :
  same_model (cached R L self) self.
Proof. repeat split. Qed.

(** [predict] ends in the object it started from, or in that object with
    the two caches assigned. *)
Lemma predict_state (X : ndarray F) (self : GMMRegressor F) :
  fst (fst (predict X self)) = self \/
  exists R L, predict_proba_of self X = Some R /\
              fst (fst (predict X self)) = cached R L self.
Proof.
  unfold predict_proba_of. rewrite predict_eq.
  repeat match goal with
  | |- context [match ?x with _ => _ end] =>
      destruct x; try (left; reflexivity)
  end.
  right. eexists. eexists. split; reflexivity.
Qed.

(** A second call sees the object the first one left and repeats it. *)
Lemma predict_again (X : ndarray F) (self : GMMRegressor F) :
  predict X (fst (fst (predict X self))) = predict X self.
Proof.
  rewrite (predict_eq X self).
  repeat match goal with
  | |- context [match ?x with _ => _ end] =>
      destruct x eqn:?; cbn [fst];
      try (rewrite predict_eq;
           repeat match goal with
                  | E : ?a = _ |- context [?a] => rewrite E
                  end;
           reflexivity)
  end.
  rewrite predict_eq. cbn [cached set_labels_tst_ set_resp_tst_ is_fitted_
    n_input_dims_ n_tasks_ reg_weights_ gmm_ n_components].
  repeat match goal with
         | E : ?a = _ |- context [?a] => rewrite E
         end.
  reflexivity.
Qed.

(** *** The loop of [predict] *)

Lemma predict_loop_eq (n d t K : nat) (X W R : ndarray F) (ks : list nat) :
  shape W = [t; S d; K] ->
  shape R = [n; K] ->
  (forall k, In k ks -> k < K) ->
  forall f : nat -> nat -> F,
  predict_loop (concat_ones n d X) W R ks (mk2 n t f) =
  Return (mk2 n t (fun i j =>
    fold_left (fun acc k =>
                 add acc (mul (get2 R i k) (component_dot n d X W i j k)))
              ks (f i j))).
Proof.
  intros HW HR. induction ks as [|k ks IH]; intros Hks f; [reflexivity|].
  assert (Hk : k < K) by (apply Hks; now left).
  cbn [predict_loop fold_left].
  unfold slice_last. rewrite HW.
  destruct (Nat.ltb_spec k K) as [_|]; [|lia]. cbn [rbind].
  unfold transpose, dot. cbn [shape mk2 concat_ones].
  rewrite Nat.eqb_refl. cbn [rbind].
  unfold column. rewrite HR.
  destruct (Nat.ltb_spec k K) as [_|]; [|lia]. cbn [rbind].
  unfold broadcast2. cbn [shape newaxis_col mk1 mk2 app].
  rewrite bdim_refl, bdim_1_l. cbn [rbind].
  unfold iadd2. cbn [shape mk2].
  rewrite !Nat.eqb_refl. cbn [orb andb rbind].
  rewrite IH by (intros k' Hk'; apply Hks; now right).
  f_equal. apply mk2_ext. intros i j Hi Hj. f_equal.
  rewrite (bidx_lt n i Hi), (bidx_lt t j Hj).
  rewrite !get2_mk2 by assumption.
  rewrite (bidx_lt n i Hi), (bidx_lt t j Hj).
  rewrite get2_mk2 by assumption.
  f_equal. f_equal.
  - change (bidx 1 j) with 0.
    apply (get2_newaxis_col_mk1 n (fun i => get2 R i k)). assumption.
  - unfold component_dot. f_equal. apply tab_ext. intros l Hl. f_equal.
    rewrite !get2_mk2 by assumption. reflexivity.
Qed.

(** Undoing [squeeze] the way [predict] does works when neither the
    feature axis nor the component axis has length one. *)
Lemma unsqueeze_weights (t d K : nat) (W : ndarray F) :
  shape W = [t; S d; K] -> 1 <= d -> 2 <= K ->
  (if t =? 1 then newaxis_front (squeeze W) else Return (squeeze W)) =
  Return W.
Proof.
  intros HW Hd HK. destruct W as [sh dt]. cbn in HW. subst sh.
  unfold squeeze, newaxis_front, ndim. cbn [shape data filter].
  destruct (Nat.eqb_spec (S d) 1) as [|_]; [lia|].
  destruct (Nat.eqb_spec K 1) as [|_]; [lia|].
  destruct (Nat.eqb_spec t 1) as [->|_]; reflexivity.
Qed.

(** With a single component the component axis is squeezed away and the
    three-index slice of [predict] has an axis too few. *)
Lemma lost_component_axis (t d : nat) (W : ndarray F) :
  shape W = [t; S d; 1] ->
  (if t =? 1 then newaxis_front (squeeze W) else Return (squeeze W)) =
    Raise IndexError \/
  exists W', (if t =? 1 then newaxis_front (squeeze W)
              else Return (squeeze W)) = Return W' /\
             ndim W' < 3.
Proof.
  intros HW. destruct W as [sh dt]. cbn in HW. subst sh.
  unfold squeeze, newaxis_front, ndim. cbn [shape data filter Nat.eqb negb].
  destruct (Nat.eqb_spec t 1) as [->|_].
  - cbn. destruct (Nat.eqb_spec d 0); cbn; now left.
  - right. eexists. split; [reflexivity|].
    cbn. destruct d; cbn; lia.
Qed.

(** [predict] on a model with at least two components and one feature. *)
Lemma predict_fitted_eq (t d K n : nat) (W X R : ndarray F)
  (g : GaussianMixture F) (self : GMMRegressor F) :
  Fitted t d K W g self -> 2 <= K -> 1 <= d ->
  shape X = [n; d] ->
  predict_proba g X = Return R -> shape R = [n; K] ->
  predict X self =
  (cached R (tab n (fun i => argmax_row (tab K (get2 R i)))) self, [],
   Return (Some (mk2 n t (blend K R (component_dot n d X W))))).
Proof.
  intros (Hfit & Ht & Hd0 & HW0 & HW & Hg & HK0) HK Hd HX HR HRs.
  rewrite predict_eq, Hfit. unfold shape2. rewrite HX, Hd0, Nat.eqb_refl.
  rewrite Ht, HW0, (unsqueeze_weights t d K W HW Hd HK), Hg, HR.
  unfold argmax_axis1. rewrite HRs.
  destruct (Nat.eqb_spec K 0) as [|_]; [lia|].
  rewrite HK0. unfold zeros2.
  rewrite (predict_loop_eq n d t K X W R (seq 0 K) HW HRs).
  - reflexivity.
  - intros k Hk. apply in_seq in Hk. lia.
Qed.

(** *** Bias plus linear part *)

Lemma fold_left_add_shift (E : ExactLaws F) (l : list F) (a : F) :
  fold_left add l a = add a (fold_left add l zero).
Proof.
  revert a. induction l as [|x l IH]; intros a; cbn [fold_left].
  - now rewrite (add_0_r F E).
  - rewrite (IH (add a x)), (add_0_l F E), (IH x). now rewrite (add_assoc F E).
Qed.

Lemma sum_list_cons (E : ExactLaws F) (a : F) (l : list F) :
  sum_list (a :: l) = add a (sum_list l).
Proof.
  unfold sum_list. cbn [fold_left]. rewrite (add_0_l F E).
  apply fold_left_add_shift. exact E.
Qed.

(** In exact arithmetic the dot product with the extended row is the bias
    plus the linear part. *)
Lemma component_dot_affine (E : ExactLaws F) (n d : nat) (X W : ndarray F)
  (i j k : nat) :
  i < n -> component_dot n d X W i j k = component_affine d X W i j k.
Proof.
  intros Hi. unfold component_dot, component_affine.
  rewrite tab_S, (sum_list_cons E).
  unfold concat_ones at 1. rewrite get2_mk2 by (auto; lia).
  rewrite (mul_1_l F E). f_equal. f_equal.
  apply tab_ext. intros l Hl. f_equal.
  unfold concat_ones. rewrite get2_mk2 by (auto; lia). reflexivity.
Qed.

Lemma blend_ext (K : nat) (R : ndarray F) (c c' : nat -> nat -> nat -> F)
  (i j : nat) :
  (forall k, c i j k = c' i j k) -> blend K R c i j = blend K R c' i j.
Proof.
  intros Hc. unfold blend. generalize (seq 0 K) as ks. generalize zero as z.
  intros z ks. revert z. induction ks as [|k ks IH]; intros z; cbn [fold_left].
  - reflexivity.
  - now rewrite Hc, IH.
Qed.

(** The mixture-weighted prediction: for at least two components and in
    exact arithmetic, [predict] returns the [n] by [t] array whose entry
    [(i, j)] accumulates, over the components [k],
    [R[i, k] * (bias + X[i] . coefficients)]. *)
Lemma predict_mixture_formula (E : ExactLaws F) (t d K n : nat)
  (W X R : ndarray F) (g : GaussianMixture F) (self : GMMRegressor F) :
  Fitted t d K W g self -> 2 <= K -> 1 <= d ->
  shape X = [n; d] ->
  predict_proba g X = Return R -> shape R = [n; K] ->
  snd (predict X self) =
  Return (Some (mk2 n t (blend K R (component_affine d X W)))).
Proof.
  intros Hfit HK Hd HX HR HRs.
  rewrite (predict_fitted_eq t d K n W X R g self Hfit HK Hd HX HR HRs).
  cbn [snd]. f_equal. f_equal. apply mk2_ext. intros i j Hi Hj.
  apply blend_ext. intros k. now apply (component_dot_affine E n).
Qed.

(** *** What [fit] leaves behind *)

Lemma set_slice_last_shape (W Wk : ndarray F) (k : nat) :
  shape (set_slice_last W k Wk) = shape W.
Proof.
  unfold set_slice_last.
  destruct (shape W) as [|a [|b [|c [|? ?]]]] eqn:E; try assumption.
  reflexivity.
Qed.

Lemma fit_loop_shape (X y resp : ndarray F) (gmm : GaussianMixture F)
  (a : F) (ks : list nat) :
  forall W0 P0 W P,
  fit_loop X y resp gmm a ks W0 P0 = Return (W, P) -> shape W = shape W0.
Proof.
  induction ks as [|k ks IH]; intros W0 P0 W P; cbn [fit_loop].
  - intros Heq. now inversion Heq.
  - destruct (column resp k) as [r|e]; cbn [rbind]; [|discriminate].
    destruct (index (weights_ gmm) k) as [w|e]; cbn [rbind]; [|discriminate].
    destruct (_estimate_regression_params_k X y r a w) as [[Wk pk]|e];
      cbn [rbind]; [|discriminate].
    intros Heq. apply IH in Heq. now rewrite Heq, set_slice_last_shape.
Qed.

(** A failed [fit] has lowered the flag and assigned nothing else. *)
Lemma fit_raise (X y : ndarray F) (self self' : GMMRegressor F)
  (out : list string) (e : exception) :
  fit X y self = (self', out, Raise e) ->
  self' = set_is_fitted_ (Some false) self.
Proof.
  rewrite fit_eq. cbv zeta.
  repeat match goal with
  | |- context [match ?x with _ => _ end] =>
      destruct x; try (intros Heq; now inversion Heq)
  end.
Qed.

(** A [fit] that returns leaves a model of the expected shape. *)
Lemma fit_return (X y : ndarray F) (self self' : GMMRegressor F)
  (out : list string) :
  fit X y self = (self', out, Return tt) ->
  exists n d t W g,
    shape X = [n; d] /\ shape (as_columns y) = [n; t] /\
    Fitted t d (n_components self) W g self' /\
    n_components self' = n_components self.
Proof.
  rewrite fit_eq. cbv zeta. unfold shape2.
  destruct (shape X) as [|n [|d [|? ?]]] eqn:HX; try discriminate.
  destruct (shape (as_columns y)) as [|n_y [|t [|? ?]]] eqn:Hy;
    try discriminate.
  destruct (Nat.eqb_spec n n_y) as [<-|_]; [|discriminate].
  destruct (GaussianMixture_fit _ X) as [g|]; [|discriminate].
  destruct (predict_proba g X) as [R|]; [|discriminate].
  destruct (argmax_axis1 R) as [L|]; [|discriminate].
  destruct (fit_loop _ _ _ _ _ _ _ _) as [[W P]|] eqn:Hloop; [|discriminate].
  intros Heq. inversion Heq; subst. clear Heq.
  apply fit_loop_shape in Hloop.
  exists n, d, t, W, g. repeat split; assumption.
Qed.

(** [P[:, k] = p] gives every task of component [k] the one value [p]. *)
Lemma set_column_all_tasks (a c : nat) (P : ndarray F) (k : nat) (p : F)
  (j : nat) :
  shape P = [a; c] -> j < a -> k < c -> get2 (set_column P k p) j k = p.
Proof.
  intros HP Hj Hk. unfold set_column. rewrite HP.
  rewrite get2_mk2 by assumption. now rewrite Nat.eqb_refl.
Qed.

(** With one component [predict] raises [IndexError], whatever the data. *)
Lemma predict_single_component_raises (t d n : nat) (W X R : ndarray F)
  (g : GaussianMixture F) (self : GMMRegressor F) :
  Fitted t d 1 W g self ->
  shape X = [n; d] ->
  predict_proba g X = Return R -> shape R = [n; 1] ->
  predict X self = (self, [], Raise IndexError).
Proof.
  intros (Hfit & Ht & Hd0 & HW0 & HW & Hg & HK0) HX HR HRs.
  rewrite predict_eq, Hfit. unfold shape2. rewrite HX, Hd0, Nat.eqb_refl.
  rewrite Ht, HW0.
  destruct (lost_component_axis t d W HW) as [->|(W' & -> & HW')];
    [reflexivity|].
  rewrite Hg, HR. unfold argmax_axis1. rewrite HRs. cbn [Nat.eqb].
  rewrite HK0. cbn [seq predict_loop]. unfold slice_last, ndim in *.
  destruct (shape W') as [|a [|b [|c [|? ?]]]]; cbn in HW'; try lia;
    reflexivity.
Qed.

(** *** The precision of one component *)

Lemma stack_weights_shape (t d : nat) (solver : RidgeModel F)
  (W_k : ndarray F) :
  stack_weights t d solver = Return W_k -> exists f, W_k = mk2 t (S d) f.
Proof.
  unfold stack_weights.
  repeat match goal with
  | |- context [match ?x with _ => _ end] => destruct x; try discriminate
  end.
  intros Heq. injection Heq as <-. eexists. reflexivity.
Qed.

(** Whatever the solver returns, the precision of a component is one
    scalar: the squared residuals are weighted by the responsibilities and
    summed over every sample and over every task. *)
Lemma estimate_precision_pooled (X y : ndarray F) (r : nat -> F)
  (alpha weight_k : F) (n d t : nat) (W_k : ndarray F) (p : F) :
  shape X = [n; d] -> shape y = [n; t] ->
  _estimate_regression_params_k X y (mk1 n r) alpha weight_k =
    Return (W_k, p) ->
  p = div (mul (of_nat n) weight_k)
          (sum_list (List.concat (tab n (fun i => tab t (fun j =>
             mul (r i) (squared_residual n d X y W_k i j)))))).
Proof.
  intros HX Hy. unfold _estimate_regression_params_k, shape2.
  rewrite HX, Hy. cbn [rbind].
  destruct (Ridge_fit _ _ _ _) as [solver|]; cbn [rbind]; [|discriminate].
  destruct (stack_weights t d solver) as [W|] eqn:HW; cbn [rbind];
    [|discriminate].
  destruct (stack_weights_shape t d solver W HW) as [f ->].
  unfold transpose, dot. cbn [shape mk2 concat_ones].
  rewrite Nat.eqb_refl. cbn [rbind].
  unfold broadcast2. rewrite Hy. cbn [shape mk2].
  rewrite !bdim_refl. cbn [rbind]. rewrite square_mk2.
  cbn [shape newaxis_col mk1 mk2 app].
  rewrite ?bdim_refl, bdim_1_l. cbn [rbind].
  intros Heq. injection Heq as <- <-.
  unfold np_sum. cbn [data mk2]. f_equal. f_equal. f_equal.
  apply tab_ext. intros i Hi. apply tab_ext. intros j Hj.
  rewrite (bidx_lt n i Hi), (bidx_lt t j Hj).
  change (bidx 1 j) with 0.
  rewrite (get2_newaxis_col_mk1 n r i Hi).
  rewrite !get2_mk2 by assumption.
  rewrite (bidx_lt n i Hi), (bidx_lt t j Hj).
  unfold squared_residual, fitted_value. cbv zeta.
  rewrite (get2_mk2 n t _ i j Hi Hj).
  assert (Hsum :
    sum_list (tab (S d) (fun l =>
      mul (get2 (concat_ones n d X) i l)
          (get2 (mk2 (S d) t (fun i0 j0 => get2 (mk2 t (S d) f) j0 i0)) l j)))
    = sum_list (tab (S d) (fun l =>
      mul (get2 (concat_ones n d X) i l) (get2 (mk2 t (S d) f) j l)))).
  { f_equal. apply tab_ext. intros l Hl. f_equal.
    now rewrite get2_mk2 by assumption. }
  rewrite Hsum. reflexivity.
Qed.

End MethodFacts.

(** * The claims *)

Section Claims.

Context {F : Type} `{Scalar F} `{Sklearn F}.

(** C1, as the code has it.  On an object whose flag [is_fitted_] is
    [False] (a [fit] was started and has not completed), [predict] prints
    "Model isn't fitted." and returns [None], and the object is unchanged;
    it raises nothing.  [score] prints the same line, leaves the object
    unchanged and hands that [None] to [r2_score]: it ends exactly the way
    [r2_score] ends on it, so that an exception of [score] is the one
    [r2_score] raised. *)
Theorem predict_unfitted_prints_and_returns_None
  (self : GMMRegressor F) (X y : ndarray F) :
  is_fitted_ self = Some false ->
  predict X self = (self, ["Model isn't fitted."], Return None) /\
  (forall e, snd (predict X self) <> Raise e) /\
  score X y self = (self, ["Model isn't fitted."], r2_score y None) /\
  (forall e, snd (score X y self) = Raise e -> r2_score y None = Raise e).
Proof.
  intros Hfit.
  assert (Hp : predict X self = (self, ["Model isn't fitted."], Return None))
    by now rewrite predict_eq, Hfit.
  assert (Hs : score X y self =
               (self, ["Model isn't fitted."], r2_score y None))
    by (unfold score, bind; rewrite Hp; reflexivity).
  split; [exact Hp|]. split; [|split; [exact Hs|]].
  - intros e. rewrite Hp. cbn. discriminate.
  - intros e. rewrite Hs. cbn. auto.
Qed.

(** C2, as the code has it.  When [X] has [n_x] samples, [y] has [n_y] and
    they differ, [fit] lowers [is_fitted_], prints the three lines of the
    size error and leaves through its [sys.exit()] call: it assigns nothing
    else, fits no mixture, and what it raises is not a
    [ShapeMismatchError]. *)
Theorem fit_size_mismatch_prints_and_exits
  (self : GMMRegressor F) (X y : ndarray F) (n_x d n_y t : nat) :
  shape X = [n_x; d] ->
  shape (as_columns y) = [n_y; t] ->
  n_x <> n_y ->
  fit X y self =
    (set_is_fitted_ (Some false) self, size_error_lines n_x n_y,
     Raise (sys_exit_raises None)) /\
  sys_exit_raises None <> ShapeMismatchError.
Proof.
  intros HX Hy Hne. split.
  - rewrite fit_eq. cbv zeta. unfold shape2. rewrite HX, Hy.
    destruct (Nat.eqb_spec n_x n_y) as [|_]; [contradiction|reflexivity].
  - unfold sys_exit_raises. destruct (is_global "sys"); discriminate.
Qed.

(** C3, as the code has it.  A [fit] that fails, at whichever step, leaves
    the object with [is_fitted_] lowered to [False] and every other
    attribute as it was before the call.  No partly assigned model is
    reachable, and neither is the previous one: [predict] prints "Model
    isn't fitted." and returns [None] until a [fit] succeeds. *)
Theorem failed_fit_lowers_flag
  (self self' : GMMRegressor F) (X y : ndarray F) (out : list string)
  (e : exception) :
  fit X y self = (self', out, Raise e) ->
  self' = set_is_fitted_ (Some false) self /\
  forall X', predict X' self' = (self', ["Model isn't fitted."], Return None).
Proof.
  intros Hfit. apply fit_raise in Hfit. subst self'. split; [reflexivity|].
  intros X'. now rewrite predict_eq.
Qed.

(** C6: [fit] never reads [covariance_type].  The mixture is constructed
    with scikit-learn's default ['full'] whatever the estimator was
    configured with, and two estimators that differ only in
    [covariance_type] fit the same model. *)
Theorem fit_ignores_covariance_type
  (self : GMMRegressor F) (X y : ndarray F) (c : string) :
  gp_covariance_type
    (GMM (n_components (set_covariance_type c self))
         (n_init (set_covariance_type c self))
         (random_state (set_covariance_type c self))) = "full" /\
  fit X y (set_covariance_type c self) =
  match fit X y self with
  | (self', out, r) => (set_covariance_type c self', out, r)
  end.
Proof.
  split; [reflexivity|].
  rewrite !fit_eq. cbv zeta.
  cbn [set_covariance_type n_components n_init random_state alpha].
  repeat match goal with
  | |- context [match ?x with _ => _ end] => destruct x; try reflexivity
  end.
Qed.

(** C7, as the code has it.  On a model fitted with at least two
    components on data with at least one feature, [predict] returns an
    array of shape [(n, t)] for every number of tasks [t]: for [t = 1] it
    is the one-column array of shape [(n, 1)], which is not squeezed. *)
Theorem predict_returns_matrix
  (self0 self : GMMRegressor F) (X0 y0 X R : ndarray F) (out : list string)
  (n d t : nat) :
  fit X0 y0 self0 = (self, out, Return tt) ->
  2 <= n_components self0 ->
  n_input_dims_ self = Some d -> 1 <= d ->
  n_tasks_ self = Some t ->
  shape X = [n; d] ->
  predict_proba_of self X = Some R -> shape R = [n; n_components self] ->
  exists targets,
    snd (predict X self) = Return (Some targets) /\ shape targets = [n; t].
Proof.
  intros Hfit HK Hd0 Hd Ht HX HR HRs.
  destruct (fit_return X0 y0 self0 self out Hfit)
    as (n0 & d' & t' & W & g & _ & _ & HF & HKeq).
  pose proof HF as (_ & Ht' & Hd' & _ & _ & Hg & _).
  rewrite Ht in Ht'. rewrite Hd0 in Hd'.
  injection Ht' as <-. injection Hd' as <-.
  unfold predict_proba_of in HR. rewrite Hg in HR.
  destruct (predict_proba g X) as [R'|] eqn:HR'; [|discriminate].
  injection HR as ->. rewrite HKeq in HRs.
  rewrite (predict_fitted_eq t d (n_components self0) n W X R g self
             HF HK Hd HX HR' HRs).
  eexists. split; reflexivity.
Qed.

(** C8, as the code has it.  On a fitted model, when the feature dimension
    of [X] differs from [n_input_dims_], [predict] prints "Incorrect
    dimensions for input data." and leaves through its [sys.exit(0)] call:
    the object is unchanged, nothing is returned, and what it raises is not
    a [ShapeMismatchError]. *)
Theorem predict_dimension_mismatch_prints_and_exits
  (self : GMMRegressor F) (X : ndarray F) (n d n_input_dims : nat) :
  is_fitted_ self = Some true ->
  n_input_dims_ self = Some n_input_dims ->
  shape X = [n; d] ->
  d <> n_input_dims ->
  predict X self =
    (self, ["Incorrect dimensions for input data."],
     Raise (sys_exit_raises (Some 0))) /\
  sys_exit_raises (Some 0) <> ShapeMismatchError.
Proof.
  intros Hfit Hd0 HX Hne. split.
  - rewrite predict_eq, Hfit. unfold shape2. rewrite HX, Hd0.
    destruct (Nat.eqb_spec d n_input_dims) as [|_]; [contradiction|reflexivity].
  - unfold sys_exit_raises. destruct (is_global "sys"); discriminate.
Qed.

(** C9: [predict] is idempotent.  For every object, a fitted model in
    particular, and every input [X], a second [predict(X)] returns what the
    first returned, prints what it printed and leaves the object the first
    left; and the first call leaves the fitted model (the mixture, the
    weights and precisions, the task and feature counts, the flag) as it
    found it. *)
Theorem predict_idempotent (self : GMMRegressor F) (X : ndarray F) :
  let first := predict X self in
  let second := predict X (fst (fst first)) in
  second = first /\
  same_model (fst (fst first)) self.
Proof.
  intros first second. subst first second.
  rewrite predict_again. repeat split;
    destruct (predict_state X self) as [->|(R & L & _ & ->)]; reflexivity.
Qed.

(** C10: [predict] assigns [resp_tst_] and [labels_tst_] and nothing else.
    For every object, a fitted model with a matching feature dimension in
    particular, the object after the call is the object before it with at
    most these two attributes assigned: [gmm_], [reg_weights_],
    [reg_precisions_], [n_tasks_], [n_input_dims_], [is_fitted_],
    [resp_tr_] and [labels_tr_] are as before the call. *)
Theorem predict_frame (self : GMMRegressor F) (X : ndarray F) :
  let self' := fst (fst (predict X self)) in
  same_model self' self /\
  exists r l, self' = set_labels_tst_ l (set_resp_tst_ r self).
Proof.
  intros self'. subst self'.
  destruct (predict_state X self) as [->|(R & L & _ & ->)].
  - split; [apply same_model_refl|].
    exists (resp_tst_ self), (labels_tst_ self). now destruct self.
  - split; [apply same_model_cached|].
    exists (Some R), (Some L). reflexivity.
Qed.

End Claims.

(** * The claims on concrete data

    Runs of the methods on the instance [Exact]: two samples of one
    feature, targets [3] and [1] (one task) or [(3, 5)] and [(1, -1)] (two
    tasks), rational arithmetic. *)

Local Open Scope Q_scope.

(** Concrete runs are settled by evaluation. *)
Ltac by_run :=
  repeat match goal with |- _ /\ _ => split end;
  vm_compute; first [reflexivity | discriminate | apply le_n].

(** What the runs below start from: [fit] on [X2], [y2] returns for one and
    for two components, and stores the weights squeezed. *)
Example fit_runs :
  fit Exact.X2 Exact.y2 (Exact.regressor 2) = (Exact.fitted2, [], Return tt) /\
  reg_weights_ Exact.fitted2 =
    Some {| shape := [2; 2]%nat; data := [2; 2; 0; 0] |} /\
  fit Exact.X2 Exact.y2 (Exact.regressor 1) = (Exact.fitted1, [], Return tt) /\
  reg_weights_ Exact.fitted1 = Some {| shape := [2]%nat; data := [2; 0] |}.
Proof. by_run. Qed.

(** The source file imports no [sys]: its two [sys.exit] calls raise
    [NameError]. *)
Example sys_is_not_imported :
  is_global "sys" = false /\
  forall code, sys_exit_raises code = NameError "sys".
Proof. by_run. Qed.

(** A freshly constructed object has no [is_fitted_] at all. *)
Example predict_on_new_object :
  predict Exact.X2 (Exact.regressor 2) =
  (Exact.regressor 2, [], Raise (AttributeError "is_fitted_")).
Proof. by_run. Qed.

(** C1 fails as stated: after a [fit] that did not succeed, [predict]
    returns [None] and raises nothing. *)
Lemma predict_unfitted_counterexample :
  Exact.outcome (fit Exact.X2 Exact.y3 (Exact.regressor 2)) <> Return tt /\
  Exact.outcome (predict Exact.X2 Exact.unfitted) = Return None /\
  Exact.outcome (predict Exact.X2 Exact.unfitted) <> Raise NotFittedError.
Proof. by_run. Qed.

(** An instance: the object the failed [fit] above left behind. *)
Lemma predict_unfitted_witness :
  is_fitted_ Exact.unfitted = Some false /\
  predict Exact.X2 Exact.unfitted =
    (Exact.unfitted, ["Model isn't fitted."%string], Return None) /\
  (forall e, snd (predict Exact.X2 Exact.unfitted) <> Raise e) /\
  score Exact.X2 Exact.y2 Exact.unfitted =
    (Exact.unfitted, ["Model isn't fitted."%string], r2_score Exact.y2 None) /\
  (forall e, snd (score Exact.X2 Exact.y2 Exact.unfitted) = Raise e ->
             r2_score Exact.y2 None = Raise e).
Proof.
  split; [vm_compute; reflexivity|].
  apply (predict_unfitted_prints_and_returns_None
           Exact.unfitted Exact.X2 Exact.y2).
  vm_compute; reflexivity.
Defined.

(** C2 fails as stated: two samples against three targets end in the
    printed lines and the exception of the [sys.exit()] call. *)
Lemma fit_size_mismatch_counterexample :
  fit Exact.X2 Exact.y3 (Exact.regressor 2) =
    (set_is_fitted_ (Some false) (Exact.regressor 2),
     ["Data size error. Number of samples in X and y must match:"%string;
      "X n_samples = 2, y n_samples = 3"%string;
      "Exiting."%string],
     Raise (NameError "sys")) /\
  Exact.outcome (fit Exact.X2 Exact.y3 (Exact.regressor 2)) <>
    Raise ShapeMismatchError.
Proof. by_run. Qed.

(** An instance: two samples against three targets. *)
Lemma fit_size_mismatch_witness :
  shape Exact.X2 = [2; 1]%nat /\
  shape (as_columns Exact.y3) = [3; 1]%nat /\
  2%nat <> 3%nat /\
  fit Exact.X2 Exact.y3 (Exact.regressor 2) =
    (set_is_fitted_ (Some false) (Exact.regressor 2), size_error_lines 2 3,
     Raise (sys_exit_raises None)) /\
  sys_exit_raises None <> ShapeMismatchError.
Proof.
  split; [vm_compute; reflexivity|]. split; [vm_compute; reflexivity|].
  split; [discriminate|].
  apply (fit_size_mismatch_prints_and_exits
           (Exact.regressor 2) Exact.X2 Exact.y3 2 1 3 1);
    [vm_compute; reflexivity | vm_compute; reflexivity | discriminate].
Defined.

(** C3 fails as stated: a fitted model predicts; after a second [fit] has
    failed it holds the same weights and mixture, and [predict] returns
    [None]. *)
Lemma failed_refit_counterexample :
  is_fitted_ Exact.fitted2 = Some true /\
  Exact.outcome (predict Exact.X2 Exact.fitted2) =
    Return (Some {| shape := [2; 1]%nat; data := [2; 2] |}) /\
  Exact.outcome (fit Exact.X2 Exact.y3 Exact.fitted2) =
    Raise (NameError "sys") /\
  reg_weights_ Exact.refit_failed = reg_weights_ Exact.fitted2 /\
  Exact.outcome (predict Exact.X2 Exact.refit_failed) = Return None.
Proof. by_run. Qed.

(** An instance: the fitted model after the second, failed [fit]. *)
Lemma failed_fit_witness :
  fit Exact.X2 Exact.y3 Exact.fitted2 =
    (Exact.refit_failed, size_error_lines 2 3, Raise (NameError "sys")) /\
  Exact.refit_failed = set_is_fitted_ (Some false) Exact.fitted2 /\
  forall X', predict X' Exact.refit_failed =
    (Exact.refit_failed, ["Model isn't fitted."%string], Return None).
Proof.
  split; [vm_compute; reflexivity|].
  apply (failed_fit_lowers_flag Exact.fitted2 Exact.refit_failed
           Exact.X2 Exact.y3 (size_error_lines 2 3) (NameError "sys")).
  vm_compute; reflexivity.
Defined.

(** C4 at [n_components=1]: [fit] returns, the stored weights have lost
    the component axis, and [predict] on the training input raises
    [IndexError] where the claim has it return the blended prediction. *)
Theorem predict_single_component_fails :
  fit Exact.X2 Exact.y2 (Exact.regressor 1) = (Exact.fitted1, [], Return tt) /\
  is_fitted_ Exact.fitted1 = Some true /\
  reg_weights_ Exact.fitted1 = Some {| shape := [2]%nat; data := [2; 0] |} /\
  predict Exact.X2 Exact.fitted1 = (Exact.fitted1, [], Raise IndexError).
Proof. by_run. Qed.

(** C5 with two tasks: both tasks predict [2], the residuals are [1, -1]
    for the first task and [3, -3] for the second, and every sample has
    responsibility [1/2] for each of the two components of weight [1/2].
    Per task the claimed precision is [1] and [1/9]; [fit] stores [1/10]
    four times, the value obtained by summing over both tasks. *)
Theorem precision_pools_tasks :
  reg_weights_ Exact.fitted2x2 =
    Some {| shape := [2; 2; 2]%nat; data := [2; 2; 0; 0; 2; 2; 0; 0] |} /\
  resp_tr_ Exact.fitted2x2 =
    Some {| shape := [2; 2]%nat; data := [1 # 2; 1 # 2; 1 # 2; 1 # 2] |} /\
  reg_precisions_ Exact.fitted2x2 =
    Some {| shape := [2; 2]%nat;
            data := [1 # 10; 1 # 10; 1 # 10; 1 # 10] |} /\
  precision_per_task 2 (1 # 2) [1 # 2; 1 # 2] [3 - 2; 1 - 2] = 1 /\
  precision_per_task 2 (1 # 2) [1 # 2; 1 # 2] [5 - 2; -1 - 2] = 1 # 9.
Proof. by_run. Qed.

(** C7 fails as stated: with one task [predict] returns the [(2, 1)]
    array, not a vector of length two. *)
Lemma predict_single_task_counterexample :
  n_tasks_ Exact.fitted2 = Some 1%nat /\
  Exact.outcome (predict Exact.X2 Exact.fitted2) =
    Return (Some {| shape := [2; 1]%nat; data := [2; 2] |}) /\
  [2; 1]%nat <> [2]%nat.
Proof. by_run. Qed.

(** An instance: one task, two components, the training input. *)
Lemma predict_returns_matrix_witness :
  fit Exact.X2 Exact.y2 (Exact.regressor 2) = (Exact.fitted2, [], Return tt) /\
  (2 <= n_components (Exact.regressor 2))%nat /\
  n_input_dims_ Exact.fitted2 = Some 1%nat /\
  (1 <= 1)%nat /\
  n_tasks_ Exact.fitted2 = Some 1%nat /\
  shape Exact.X2 = [2; 1]%nat /\
  predict_proba_of Exact.fitted2 Exact.X2 =
    Some (mk2 2 2 (fun _ _ => 1 # 2)) /\
  shape (mk2 2 2 (fun _ _ => 1 # 2)) = [2; n_components Exact.fitted2]%nat /\
  exists targets,
    snd (predict Exact.X2 Exact.fitted2) = Return (Some targets) /\
    shape targets = [2; 1]%nat.
Proof.
  do 8 (split; [first [vm_compute; reflexivity | apply le_n]|]).
  apply (predict_returns_matrix (Exact.regressor 2) Exact.fitted2
           Exact.X2 Exact.y2 Exact.X2 (mk2 2 2 (fun _ _ => 1 # 2)) [] 2 1 1);
    first [vm_compute; reflexivity | apply le_n].
Defined.

(** C8 fails as stated: an input of two features on a model fitted on one
    ends in the printed line and the exception of the [sys.exit(0)] call. *)
Lemma predict_dimension_mismatch_counterexample :
  n_input_dims_ Exact.fitted2 = Some 1%nat /\
  shape Exact.X2x2 = [2; 2]%nat /\
  predict Exact.X2x2 Exact.fitted2 =
    (Exact.fitted2, ["Incorrect dimensions for input data."%string],
     Raise (NameError "sys")) /\
  Exact.outcome (predict Exact.X2x2 Exact.fitted2) <> Raise ShapeMismatchError.
Proof. by_run. Qed.

(** An instance: two features against one. *)
Lemma predict_dimension_mismatch_witness :
  is_fitted_ Exact.fitted2 = Some true /\
  n_input_dims_ Exact.fitted2 = Some 1%nat /\
  shape Exact.X2x2 = [2; 2]%nat /\
  2%nat <> 1%nat /\
  predict Exact.X2x2 Exact.fitted2 =
    (Exact.fitted2, ["Incorrect dimensions for input data."%string],
     Raise (sys_exit_raises (Some 0%nat))) /\
  sys_exit_raises (Some 0%nat) <> ShapeMismatchError.
Proof.
  do 4 (split; [vm_compute; first [reflexivity | discriminate]|]).
  apply (predict_dimension_mismatch_prints_and_exits
           Exact.fitted2 Exact.X2x2 2 2 1);
    vm_compute; first [reflexivity | discriminate].
Defined.

(** * Further properties of the methods *)

Local Close Scope Q_scope.

Section MoreFacts.

Context {F : Type} `{Scalar F} `{Sklearn F}.

(** ** [fit] and its validation *)

Lemma as_columns_vector (y : ndarray F) (n : nat) :
  shape y = [n] -> as_columns y = newaxis_col y.
Proof. intros Hy. unfold as_columns, ndim. now rewrite Hy. Qed.

Lemma as_columns_matrix (y : ndarray F) :
  ndim y <> 1 -> as_columns y = y.
Proof.
  intros Hy. unfold as_columns.
  destruct (Nat.eqb_spec (ndim y) 1); [contradiction|reflexivity].
Qed.

(** Everything a returning [fit] went through, step by step. *)
Lemma fit_return_stored (X y : ndarray F) (self self' : GMMRegressor F)
  (out : list string) :
  fit X y self = (self', out, Return tt) ->
  exists n d t g R L W P,
    shape X = [n; d] /\ shape (as_columns y) = [n; t] /\
    GaussianMixture_fit
      (GMM (n_components self) (n_init self) (random_state self)) X =
      Return g /\
    predict_proba g X = Return R /\
    argmax_axis1 R = Return L /\
    fit_loop X (as_columns y) R g (alpha self) (seq 0 (n_components self))
      (empty3 t (S d) (n_components self)) (zeros2 t (n_components self)) =
      Return (W, P) /\
    out = [] /\
    self' = stored t d R L W P g self.
Proof.
  rewrite fit_eq. cbv zeta. unfold shape2.
  destruct (shape X) as [|n [|d [|? ?]]] eqn:HX; try discriminate.
  destruct (shape (as_columns y)) as [|n_y [|t [|? ?]]] eqn:Hy;
    try discriminate.
  destruct (Nat.eqb_spec n n_y) as [<-|_]; [|discriminate].
  destruct (GaussianMixture_fit _ X) as [g|] eqn:Hg; [|discriminate].
  destruct (predict_proba g X) as [R|] eqn:HR; [|discriminate].
  destruct (argmax_axis1 R) as [L|] eqn:HL; [|discriminate].
  destruct (fit_loop _ _ _ _ _ _ _ _) as [[W P]|] eqn:Hloop; [|discriminate].
  intros Heq. inversion Heq; subst. clear Heq.
  exists n, d, t, g, R, L, W, P. repeat split; assumption.
Qed.

(** X1.  A target vector is fitted as the one-column matrix it is reshaped
    to: [fit] on a one-axis [y] is [fit] on [y[:, np.newaxis]], and a fit
    that returns has stored one task. *)
Theorem fit_vector_targets (X y : ndarray F) (self : GMMRegressor F)
  (n : nat) :
  shape y = [n] ->
  fit X y self = fit X (newaxis_col y) self /\
  forall self' out,
    fit X y self = (self', out, Return tt) -> n_tasks_ self' = Some 1.
Proof.
  intros Hy.
  assert (H1 : as_columns y = newaxis_col y)
    by exact (as_columns_vector y n Hy).
  assert (H2 : as_columns (newaxis_col y) = newaxis_col y).
  { apply as_columns_matrix. unfold ndim, newaxis_col. cbn.
    rewrite Hy. cbn. discriminate. }
  split.
  - rewrite !fit_eq, H1, H2. reflexivity.
  - intros self' out Hfit.
    destruct (fit_return_stored X y self self' out Hfit)
      as (n0 & d & t & g & R & L & W & P & _ & Hyc & _ & _ & _ & _ & _ & ->).
    rewrite H1 in Hyc. unfold newaxis_col in Hyc. cbn in Hyc.
    rewrite Hy in Hyc. cbn in Hyc. injection Hyc as _ <-. reflexivity.
Qed.

(** X2.  [fit] never assigns the constructor's attributes nor the caches
    of [predict], whether it returns or raises. *)
Theorem fit_frame (X y : ndarray F) (self : GMMRegressor F) :
  let self' := fst (fst (fit X y self)) in
  n_components self' = n_components self /\
  alpha self' = alpha self /\
  covariance_type self' = covariance_type self /\
  n_init self' = n_init self /\
  verbose self' = verbose self /\
  random_state self' = random_state self /\
  resp_tst_ self' = resp_tst_ self /\
  labels_tst_ self' = labels_tst_ self.
Proof.
  cbv zeta. rewrite fit_eq. cbv zeta.
  repeat match goal with
  | |- context [match ?x with _ => _ end] =>
      destruct x; try (repeat split; reflexivity)
  end.
Qed.

(** X3.  [fit] starts from scratch: what it returns, prints and stores
    depends on the object only through [n_components], [alpha], [n_init]
    and [random_state].  A model fitted before is discarded. *)
Theorem fit_from_scratch (X y : ndarray F) (a b : GMMRegressor F) :
  n_components a = n_components b ->
  alpha a = alpha b ->
  n_init a = n_init b ->
  random_state a = random_state b ->
  snd (fit X y a) = snd (fit X y b) /\
  snd (fst (fit X y a)) = snd (fst (fit X y b)) /\
  (snd (fit X y a) = Return tt ->
   same_model (fst (fst (fit X y a))) (fst (fst (fit X y b)))).
Proof.
  intros HK Ha Hn Hr. rewrite !fit_eq. cbv zeta.
  rewrite <- HK, <- Ha, <- Hn, <- Hr.
  repeat match goal with
  | |- context [match ?x with _ => _ end] =>
      destruct x;
      try (repeat split; solve [reflexivity | cbn; discriminate])
  end.
Qed.

(** X15.  Arrays of the wrong rank are rejected when their shape is
    unpacked: if [X] does not have two axes, or [y] has neither one nor
    two, [fit] raises [ValueError], having lowered the flag and printed
    nothing. *)
Theorem fit_rejects_wrong_rank (X y : ndarray F) (self : GMMRegressor F) :
  ndim X <> 2 \/ (ndim y <> 1 /\ ndim y <> 2) ->
  fit X y self = (set_is_fitted_ (Some false) self, [], Raise ValueError).
Proof.
  intros Hrank. rewrite fit_eq. cbv zeta. unfold shape2.
  destruct (shape X) as [|n [|d [|? ?]]] eqn:HX; try reflexivity.
  destruct Hrank as [HXn|[Hy1 Hy2]];
    [unfold ndim in HXn; rewrite HX in HXn; cbn in HXn; lia|].
  rewrite (as_columns_matrix y Hy1). unfold ndim in Hy2.
  destruct (shape y) as [|n_y [|t [|? ?]]]; try reflexivity.
  cbn in Hy2. lia.
Qed.

(** X16.  When the mixture cannot be fitted, [fit] raises on what the
    mixture raised: the flag stays lowered, nothing is printed and no
    regression is solved. *)
Theorem fit_propagates_mixture_failure (X y : ndarray F)
  (self : GMMRegressor F) (n d t : nat) (e : exception) :
  shape X = [n; d] ->
  shape (as_columns y) = [n; t] ->
  GaussianMixture_fit
    (GMM (n_components self) (n_init self) (random_state self)) X = Raise e ->
  fit X y self = (set_is_fitted_ (Some false) self, [], Raise e).
Proof.
  intros HX Hy Hg. rewrite fit_eq. cbv zeta. unfold shape2.
  now rewrite HX, Hy, Nat.eqb_refl, Hg.
Qed.

(** ** [predict] and [score] *)

(** X13.  On an object that no [fit] was ever called on, the guard of
    [predict] itself fails: [is_fitted_] does not exist yet, so [predict]
    and [score] raise [AttributeError] and print nothing. *)
Theorem predict_before_any_fit (K : nat) (a : F) (n_init0 : nat)
  (cov : string) (verbose0 : nat) (seed : option nat) (X y : ndarray F) :
  let self := __init__ K a n_init0 cov verbose0 seed in
  predict X self = (self, [], Raise (AttributeError "is_fitted_")) /\
  score X y self = (self, [], Raise (AttributeError "is_fitted_")).
Proof.
  cbv zeta.
  assert (Hp : predict X (__init__ K a n_init0 cov verbose0 seed) =
               (__init__ K a n_init0 cov verbose0 seed, [],
                Raise (AttributeError "is_fitted_")))
    by now rewrite predict_eq.
  split; [exact Hp|]. unfold score, bind. now rewrite Hp.
Qed.

(** X9.  [predict] either returns targets, and then it printed nothing and
    cached the responsibilities of [X] and the row-wise [argmax] of them; or
    it returns no targets, and then it left the object exactly as it was. *)
Theorem predict_outcomes (X : ndarray F) (self : GMMRegressor F) :
  (exists T R L,
     predict X self = (cached R L self, [], Return (Some T)) /\
     predict_proba_of self X = Some R /\
     argmax_axis1 R = Return L) \/
  (fst (fst (predict X self)) = self /\
   forall T, snd (predict X self) <> Return (Some T)).
Proof.
  unfold predict_proba_of. rewrite predict_eq.
  repeat match goal with
  | |- context [match ?x with _ => _ end] =>
      destruct x eqn:?;
      try (right; split; [reflexivity|intros T; cbn; discriminate])
  end.
  left. do 3 eexists. repeat split; eassumption.
Qed.

(** ** Labels *)

Lemma argmax_from_lt (l : list F) :
  forall best_i best i,
  best_i < i -> argmax_from best_i best i l < i + List.length l.
Proof.
  induction l as [|x l IH]; intros best_i best i Hlt; cbn [argmax_from].
  - cbn. lia.
  - cbn [List.length]. destruct (ltb best x).
    + specialize (IH i x (S i)). lia.
    + specialize (IH best_i best (S i)). lia.
Qed.

Lemma argmax_row_lt (l : list F) :
  l <> [] -> argmax_row l < List.length l.
Proof.
  destruct l as [|x l]; [congruence|]. intros _. cbn [argmax_row List.length].
  pose proof (argmax_from_lt l 0 x 1). lia.
Qed.

Lemma argmax_axis1_inv (R : ndarray F) (L : list nat) :
  argmax_axis1 R = Return L ->
  exists n m, shape R = [n; m] /\ m <> 0 /\
              L = tab n (fun i => argmax_row (tab m (get2 R i))).
Proof.
  unfold argmax_axis1.
  destruct (shape R) as [|n [|m [|? ?]]]; try discriminate.
  destruct (Nat.eqb_spec m 0) as [|Hm]; [discriminate|].
  intros Heq. injection Heq as <-. now exists n, m.
Qed.

Lemma labels_in_range (n m : nat) (R : ndarray F) :
  m <> 0 ->
  Forall (fun l => l < m) (tab n (fun i => argmax_row (tab m (get2 R i)))).
Proof.
  intros Hm. apply Forall_forall. intros l Hl. unfold tab at 1 in Hl.
  apply in_map_iff in Hl. destruct Hl as (i & <- & _).
  rewrite <- (tab_length m (get2 R i)) at 2. apply argmax_row_lt.
  destruct m; [contradiction|]. rewrite tab_S. discriminate.
Qed.

(** X5.  After a [fit] that returns, [labels_tr_] holds one label per row
    of the stored responsibilities [resp_tr_], and every label is the index
    of one of their columns. *)
Theorem fit_labels_in_range (X y : ndarray F) (self self' : GMMRegressor F)
  (out : list string) :
  fit X y self = (self', out, Return tt) ->
  exists R L n m,
    resp_tr_ self' = Some R /\ labels_tr_ self' = Some L /\
    shape R = [n; m] /\
    List.length L = n /\ Forall (fun l => l < m) L.
Proof.
  intros Hfit.
  destruct (fit_return_stored X y self self' out Hfit)
    as (n0 & d & t & g & R & L & W & P & _ & _ & _ & _ & HL & _ & _ & ->).
  destruct (argmax_axis1_inv R L HL) as (n & m & HR & Hm & ->).
  exists R, (tab n (fun i => argmax_row (tab m (get2 R i)))), n, m.
  repeat split; try assumption.
  - apply tab_length.
  - now apply labels_in_range.
Qed.

(** ** The stored weights *)

(** X6.  [fit] stores the weight tensor squeezed and [predict] puts back
    a leading axis when there is one task.  For a tensor of shape
    [(t, d+1, K)] this gives the tensor back exactly when there is at
    least one feature and the number of components is not one. *)
Theorem weights_round_trip (t d K : nat) (W : ndarray F) :
  shape W = [t; S d; K] ->
  (if t =? 1 then newaxis_front (squeeze W) else Return (squeeze W)) =
    Return W <->
  (1 <= d /\ K <> 1).
Proof.
  intros HW. split.
  - destruct W as [sh dt]. cbn in HW. subst sh.
    unfold squeeze, newaxis_front, ndim. cbn [shape data filter].
    destruct (Nat.eqb_spec (S d) 1) as [Hd|Hd];
      destruct (Nat.eqb_spec K 1) as [HK|HK];
      destruct (Nat.eqb_spec t 1) as [Ht|Ht];
      cbn; intros Heq; try discriminate;
      try (injection Heq as Heq; try discriminate; lia);
      split; lia.
  - intros [Hd HK]. destruct W as [sh dt]. cbn in HW. subst sh.
    unfold squeeze, newaxis_front, ndim. cbn [shape data filter].
    destruct (Nat.eqb_spec (S d) 1) as [|_]; [lia|].
    destruct (Nat.eqb_spec K 1) as [|_]; [contradiction|].
    destruct (Nat.eqb_spec t 1) as [->|_]; reflexivity.
Qed.

(** X7.  A model fitted with one component never predicts: whatever the
    input, [predict] ends in an exception. *)
Theorem one_component_never_predicts
  (X0 y0 : ndarray F) (self0 self : GMMRegressor F) (out : list string) :
  fit X0 y0 self0 = (self, out, Return tt) ->
  n_components self0 = 1 ->
  forall X, exists e, snd (predict X self) = Raise e.
Proof.
  intros Hfit HK X.
  destruct (fit_return X0 y0 self0 self out Hfit)
    as (n0 & d & t & W & g & _ & _ & HF & HKeq).
  rewrite HK in HF, HKeq.
  destruct HF as (Hfitted & Ht & Hd0 & HW0 & HW & Hg & _).
  rewrite predict_eq, Hfitted.
  destruct (shape2 X) as [[n d']|e]; [|now eexists].
  rewrite Hd0. destruct (d' =? d); [|now eexists].
  rewrite Ht, HW0.
  destruct (lost_component_axis t d W HW) as [->|(W' & -> & HW')];
    [now eexists|].
  rewrite Hg. destruct (predict_proba g X) as [R|e]; [|now eexists].
  destruct (argmax_axis1 R) as [L|e]; [|now eexists].
  rewrite HKeq. cbn [seq predict_loop]. unfold slice_last, ndim in *.
  destruct (shape W') as [|a [|b [|c [|? ?]]]]; cbn in HW'; try lia;
    now eexists.
Qed.

(** X14.  Predicting on the training input repeats the training
    responsibilities: after a [fit] with at least two components on data
    with at least one feature, [predict] on the same [X] returns targets
    and caches in [resp_tst_] and [labels_tst_] what [fit] stored in
    [resp_tr_] and [labels_tr_]. *)
Theorem predict_on_training_input
  (X y R : ndarray F) (self0 self : GMMRegressor F) (out : list string)
  (n d : nat) :
  fit X y self0 = (self, out, Return tt) ->
  2 <= n_components self0 ->
  shape X = [n; d] -> 1 <= d ->
  resp_tr_ self = Some R -> shape R = [n; n_components self0] ->
  let self' := fst (fst (predict X self)) in
  resp_tst_ self' = resp_tr_ self /\
  labels_tst_ self' = labels_tr_ self /\
  exists T, snd (predict X self) = Return (Some T).
Proof.
  intros Hfit HK HX Hd HRtr HRs.
  destruct (fit_return_stored X y self0 self out Hfit)
    as (n0 & d0 & t & g & R' & L & W & P & HX' & _ & _ & HR & HL & Hloop
        & _ & ->).
  rewrite HX in HX'. injection HX' as <- <-.
  cbn in HRtr. injection HRtr as ->.
  apply fit_loop_shape in Hloop.
  destruct (argmax_axis1_inv R L HL) as (n' & m & HR' & _ & ->).
  rewrite HRs in HR'. injection HR' as <- <-.
  cbv zeta.
  rewrite (predict_fitted_eq t d (n_components self0) n W X R g
             (stored t d R _ W P g self0)); try assumption.
  - cbn. repeat split. now eexists.
  - repeat split. exact Hloop.
Qed.

(** ** The loop of [fit] *)

Lemma fit_loop_cons (X y R : ndarray F) (g : GaussianMixture F) (a : F)
  (k : nat) (ks : list nat) (W P : ndarray F) :
  fit_loop X y R g a (k :: ks) W P =
  match component_solve X y R g a k with
  | Return (W_k, p_k) =>
      fit_loop X y R g a ks (set_slice_last W k W_k) (set_column P k p_k)
  | Raise e => Raise e
  end.
Proof.
  cbn [fit_loop]. unfold component_solve.
  destruct (column R k) as [r|e]; cbn [rbind]; [|reflexivity].
  destruct (index (weights_ g) k) as [w|e]; cbn [rbind]; [|reflexivity].
  destruct (_estimate_regression_params_k X y r a w) as [[W_k p_k]|e];
    reflexivity.
Qed.

Lemma column_mk1 (R : ndarray F) (n K k : nat) :
  shape R = [n; K] -> k < K ->
  column R k = Return (mk1 n (fun i => get2 R i k)).
Proof.
  intros HR Hk. unfold column. rewrite HR.
  destruct (Nat.ltb_spec k K); [reflexivity|lia].
Qed.

Lemma index_lt (l : list F) (k : nat) :
  k < List.length l -> exists w, index l k = Return w.
Proof.
  intros Hk. unfold index.
  destruct (nth_error l k) as [w|] eqn:E; [now exists w|].
  apply nth_error_None in E. lia.
Qed.

(** A solver that honours its contract makes the component's regression
    return. *)
Lemma component_solve_returns (X y R : ndarray F) (g : GaussianMixture F)
  (a : F) (n d t K k : nat) :
  shape X = [n; d] -> shape y = [n; t] -> shape R = [n; K] ->
  List.length (weights_ g) = K -> k < K ->
  solver_returns X y R a n d t k ->
  exists W_k p_k, component_solve X y R g a k = Return (W_k, p_k).
Proof.
  intros HX Hy HR Hw Hk (s & Hs & Hi & Hc).
  unfold component_solve. rewrite (column_mk1 R n K k HR Hk). cbn [rbind].
  destruct (index_lt (weights_ g) k) as [w ->]; [lia|]. cbn [rbind].
  unfold _estimate_regression_params_k, shape2. rewrite HX, Hy. cbn [rbind].
  rewrite Hs. cbn [rbind]. unfold stack_weights. rewrite Hi, Hc.
  rewrite !Nat.eqb_refl. cbn [andb rbind].
  unfold transpose, dot. cbn [shape mk2 concat_ones].
  rewrite Nat.eqb_refl. cbn [rbind].
  unfold broadcast2. rewrite Hy. cbn [shape mk2].
  rewrite !bdim_refl. cbn [rbind]. rewrite square_mk2.
  cbn [shape newaxis_col mk1 mk2 app].
  rewrite ?bdim_refl, bdim_1_l. cbn [rbind].
  eexists. eexists. reflexivity.
Qed.

(** A solver that raises makes the component's regression raise the same
    exception. *)
Lemma component_solve_raises (X y R : ndarray F) (g : GaussianMixture F)
  (a : F) (n d t K k : nat) (e : exception) :
  shape X = [n; d] -> shape y = [n; t] -> shape R = [n; K] ->
  List.length (weights_ g) = K -> k < K ->
  Ridge_fit a X y
    (add_scalar (mk1 n (fun i => get2 R i k)) (mul (of_nat 10) finfo_eps)) =
    Raise e ->
  component_solve X y R g a k = Raise e.
Proof.
  intros HX Hy HR Hw Hk Hs.
  unfold component_solve. rewrite (column_mk1 R n K k HR Hk). cbn [rbind].
  destruct (index_lt (weights_ g) k) as [w ->]; [lia|]. cbn [rbind].
  unfold _estimate_regression_params_k, shape2. rewrite HX, Hy. cbn [rbind].
  now rewrite Hs.
Qed.


Lemma fit_loop_raises (X y R : ndarray F) (g : GaussianMixture F) (a : F)
  (ks ks' : list nat) (k0 : nat) (e : exception) :
  (forall k, In k ks ->
     exists W_k p_k, component_solve X y R g a k = Return (W_k, p_k)) ->
  component_solve X y R g a k0 = Raise e ->
  forall W0 P0, fit_loop X y R g a (ks ++ k0 :: ks') W0 P0 = Raise e.
Proof.
  induction ks as [|k ks IH]; intros Hks Hk0 W0 P0; cbn [app].
  - now rewrite fit_loop_cons, Hk0.
  - rewrite fit_loop_cons.
    destruct (Hks k (or_introl eq_refl)) as (W_k & p_k & ->).
    apply IH; [|assumption]. intros k' Hk'. apply Hks. now right.
Qed.

Lemma set_column_shape (P : ndarray F) (k : nat) (p : F) :
  shape (set_column P k p) = shape P.
Proof.
  unfold set_column.
  destruct (shape P) as [|a [|c [|? ?]]] eqn:E; try assumption.
  reflexivity.
Qed.

Lemma get3_set_slice_last (t b K : nat) (W W_k : ndarray F) (k j l k' : nat) :
  shape W = [t; b; K] -> j < t -> l < b -> k' < K ->
  get3 (set_slice_last W k W_k) j l k' =
  if k' =? k then get2 W_k j l else get3 W j l k'.
Proof.
  intros HW Hj Hl Hk'. unfold set_slice_last. rewrite HW.
  now rewrite get3_mk3.
Qed.

Lemma get2_set_column (t K : nat) (P : ndarray F) (k : nat) (p : F)
  (j k' : nat) :
  shape P = [t; K] -> j < t -> k' < K ->
  get2 (set_column P k p) j k' = if k' =? k then p else get2 P j k'.
Proof.
  intros HP Hj Hk'. unfold set_column. rewrite HP.
  now rewrite get2_mk2.
Qed.

(** The loop invariant: a pass writes its own slice and column and leaves
    the others alone. *)
Lemma fit_loop_slices (X y R : ndarray F) (g : GaussianMixture F) (a : F)
  (t b K : nat) (ks : list nat) :
  forall W0 P0 W P,
  shape W0 = [t; b; K] -> shape P0 = [t; K] ->
  NoDup ks -> (forall k, In k ks -> k < K) ->
  fit_loop X y R g a ks W0 P0 = Return (W, P) ->
  shape W = [t; b; K] /\ shape P = [t; K] /\
  (forall k, In k ks ->
     exists W_k p_k,
       component_solve X y R g a k = Return (W_k, p_k) /\
       (forall j l, j < t -> l < b -> get3 W j l k = get2 W_k j l) /\
       (forall j, j < t -> get2 P j k = p_k)) /\
  (forall k, ~ In k ks -> k < K ->
     (forall j l, j < t -> l < b -> get3 W j l k = get3 W0 j l k) /\
     (forall j, j < t -> get2 P j k = get2 P0 j k)).
Proof.
  induction ks as [|k ks IH]; intros W0 P0 W P HW0 HP0 Hnd Hks Hloop.
  - cbn in Hloop. injection Hloop as <- <-.
    repeat split; try assumption. intros k [].
  - rewrite fit_loop_cons in Hloop.
    destruct (component_solve X y R g a k) as [[W_k p_k]|] eqn:Hk;
      [|discriminate].
    inversion Hnd as [|? ? Hnotin Hnd']; subst.
    assert (HkK : k < K) by (apply Hks; now left).
    assert (HW1 : shape (set_slice_last W0 k W_k) = [t; b; K])
      by now rewrite set_slice_last_shape.
    assert (HP1 : shape (set_column P0 k p_k) = [t; K])
      by now rewrite set_column_shape.
    destruct (IH _ _ W P HW1 HP1 Hnd'
                (fun k' Hk' => Hks k' (or_intror Hk')) Hloop)
      as (HW & HP & Hin & Hout).
    split; [assumption|]. split; [assumption|]. split.
    + intros k' [<-|Hk'].
      * exists W_k, p_k. split; [assumption|].
        destruct (Hout k Hnotin HkK) as [HWk HPk]. split.
        -- intros j l Hj Hl. rewrite (HWk j l Hj Hl).
           rewrite (get3_set_slice_last t b K) by assumption.
           now rewrite Nat.eqb_refl.
        -- intros j Hj. rewrite (HPk j Hj).
           rewrite (get2_set_column t K) by assumption.
           now rewrite Nat.eqb_refl.
      * now apply Hin.
    + intros k' Hnot Hk'K.
      assert (Hne : k' <> k) by (intros ->; apply Hnot; now left).
      assert (Hnot' : ~ In k' ks) by (intros Hin'; apply Hnot; now right).
      destruct (Hout k' Hnot' Hk'K) as [HWk HPk]. split.
      * intros j l Hj Hl. rewrite (HWk j l Hj Hl).
        rewrite (get3_set_slice_last t b K) by assumption.
        destruct (Nat.eqb_spec k' k); [contradiction|reflexivity].
      * intros j Hj. rewrite (HPk j Hj).
        rewrite (get2_set_column t K) by assumption.
        destruct (Nat.eqb_spec k' k); [contradiction|reflexivity].
Qed.

Lemma seq_in_range (K k : nat) : In k (seq 0 K) -> k < K.
Proof. intros Hk. apply in_seq in Hk. lia. Qed.


(** When the solver raises for a component, the components before it
    having been solved, [fit] raises the solver's exception: the flag
    stays lowered, nothing is printed, and nothing of the components
    already solved is stored. *)
Lemma fit_propagates_solver_failure (X y R : ndarray F)
  (g : GaussianMixture F) (self : GMMRegressor F) (n d t k0 : nat)
  (e : exception) :
  shape X = [n; d] -> shape (as_columns y) = [n; t] ->
  GaussianMixture_fit
    (GMM (n_components self) (n_init self) (random_state self)) X =
    Return g ->
  List.length (weights_ g) = n_components self ->
  predict_proba g X = Return R -> shape R = [n; n_components self] ->
  k0 < n_components self ->
  (forall k, k < k0 ->
     solver_returns X (as_columns y) R (alpha self) n d t k) ->
  Ridge_fit (alpha self) X (as_columns y)
    (add_scalar (mk1 n (fun i => get2 R i k0)) (mul (of_nat 10) finfo_eps)) =
    Raise e ->
  fit X y self = (set_is_fitted_ (Some false) self, [], Raise e).
Proof.
  intros HX Hy Hg Hw HR HRs Hk0 Hsolve Hraise.
  rewrite fit_eq. cbv zeta. unfold shape2.
  rewrite HX, Hy, Nat.eqb_refl, Hg, HR.
  unfold argmax_axis1. rewrite HRs.
  destruct (Nat.eqb_spec (n_components self) 0) as [|_]; [lia|].
  replace (seq 0 (n_components self))
    with (seq 0 k0 ++ k0 :: seq (S k0) (n_components self - S k0)).
  - rewrite (fit_loop_raises X (as_columns y) R g (alpha self)
               (seq 0 k0) _ k0 e); [reflexivity| |].
    + intros k Hk. apply seq_in_range in Hk.
      apply (component_solve_returns X (as_columns y) R g (alpha self)
               n d t (n_components self) k); auto; lia.
    + apply (component_solve_raises X (as_columns y) R g (alpha self)
               n d t (n_components self) k0); auto.
  - replace (n_components self) with (k0 + S (n_components self - S k0))
      at 2 by lia.
    rewrite seq_app. reflexivity.
Qed.

(** X11.  The tensors a returning [fit] stores are assembled from the
    components' regressions, one per component.  Slice [k] of the weight
    tensor holds the weights of component [k]'s regression for every task,
    and column [k] of the precision matrix holds that regression's one
    precision for every task; no pass overwrites what another one wrote. *)
Theorem fit_assembles_components (X y : ndarray F)
  (self self' : GMMRegressor F) (out : list string) :
  fit X y self = (self', out, Return tt) ->
  exists n d t g R W P,
    shape X = [n; d] /\ shape (as_columns y) = [n; t] /\
    resp_tr_ self' = Some R /\ gmm_ self' = Some g /\
    reg_weights_ self' = Some (squeeze W) /\
    reg_precisions_ self' = Some (squeeze P) /\
    shape W = [t; S d; n_components self] /\
    shape P = [t; n_components self] /\
    forall k, k < n_components self ->
      exists W_k p_k,
        component_solve X (as_columns y) R g (alpha self) k =
          Return (W_k, p_k) /\
        (forall j l, j < t -> l < S d -> get3 W j l k = get2 W_k j l) /\
        (forall j, j < t -> get2 P j k = p_k).
Proof.
  intros Hfit.
  destruct (fit_return_stored X y self self' out Hfit)
    as (n & d & t & g & R & L & W & P & HX & Hy & _ & _ & _ & Hloop & _ & ->).
  destruct (fit_loop_slices X (as_columns y) R g (alpha self)
              t (S d) (n_components self) _
              (empty3 t (S d) (n_components self))
              (zeros2 t (n_components self)) W P
              eq_refl eq_refl (seq_NoDup _ 0)
              (seq_in_range (n_components self)) Hloop)
    as (HW & HP & Hin & _).
  exists n, d, t, g, R, W, P. repeat split; try assumption.
  intros k Hk. apply Hin. apply in_seq. lia.
Qed.

(** ** The precision with one task *)

Lemma combine_map_same {A B C : Type} (f : A -> B) (g : A -> C)
  (l : list A) :
  combine (map f l) (map g l) = map (fun a => (f a, g a)) l.
Proof. induction l as [|a l IH]; cbn; [reflexivity|now rewrite IH]. Qed.

Lemma concat_singletons {A B : Type} (h : A -> B) (l : list A) :
  List.concat (map (fun a => [h a]) l) = map h l.
Proof. induction l as [|a l IH]; cbn; [reflexivity|now rewrite IH]. Qed.

(** X12.  With a single task the precision of a component is the formula
    [n * weight_k / sum_i (resp_i * e_i^2)] over the residuals
    [e_i = y_i - fitted_i] of every sample. *)
Theorem single_task_precision (X y : ndarray F) (r : nat -> F)
  (a weight_k : F) (n d : nat) (W_k : ndarray F) (p : F) :
  shape X = [n; d] -> shape y = [n; 1] ->
  _estimate_regression_params_k X y (mk1 n r) a weight_k = Return (W_k, p) ->
  p = precision_per_task n weight_k (tab n r)
        (tab n (fun i => sub (get2 y i 0) (fitted_value n d X W_k i 0))).
Proof.
  intros HX Hy Hest.
  rewrite (estimate_precision_pooled X y r a weight_k n d 1 W_k p HX Hy Hest).
  unfold precision_per_task. f_equal. f_equal. unfold tab.
  rewrite combine_map_same, map_map.
  change (seq 0 1) with [0]. cbn [map].
  rewrite concat_singletons. reflexivity.
Qed.

(** ** [predict] and [score] on a fitted model *)

(** X8.  On a model with at least two components and one feature, in
    exact arithmetic, [predict] prints nothing, caches the
    responsibilities and their labels, and returns the [n] by [t] array
    whose entry [(i, j)] accumulates over the components [k] the
    responsibility [R[i, k]] times [bias + X[i] . coefficients] of task
    [j] and component [k]. *)
Theorem predict_blends_affine_components (E : ExactLaws F)
  (t d K n : nat) (W X R : ndarray F) (g : GaussianMixture F)
  (self : GMMRegressor F) :
  Fitted t d K W g self -> 2 <= K -> 1 <= d ->
  shape X = [n; d] ->
  predict_proba g X = Return R -> shape R = [n; K] ->
  predict X self =
  (cached R (tab n (fun i => argmax_row (tab K (get2 R i)))) self, [],
   Return (Some (mk2 n t (blend K R (component_affine d X W))))).
Proof.
  intros Hfit HK Hd HX HR HRs.
  rewrite (predict_fitted_eq t d K n W X R g self Hfit HK Hd HX HR HRs).
  f_equal. f_equal. f_equal. apply mk2_ext. intros i j Hi Hj.
  apply blend_ext. intros k. now apply (component_dot_affine E n).
Qed.

(** X10.  On such a model [score] is [r2_score] of [y] and the blended
    predictions: it prints nothing and leaves the caches [predict]
    leaves. *)
Theorem score_of_fitted (t d K n : nat) (W X y R : ndarray F)
  (g : GaussianMixture F) (self : GMMRegressor F) :
  Fitted t d K W g self -> 2 <= K -> 1 <= d ->
  shape X = [n; d] ->
  predict_proba g X = Return R -> shape R = [n; K] ->
  score X y self =
  (cached R (tab n (fun i => argmax_row (tab K (get2 R i)))) self, [],
   r2_score y (Some (mk2 n t (blend K R (component_dot n d X W))))).
Proof.
  intros Hfit HK Hd HX HR HRs. unfold score, bind.
  rewrite (predict_fitted_eq t d K n W X R g self Hfit HK Hd HX HR HRs).
  reflexivity.
Qed.

End MoreFacts.

(** * The further properties on concrete data *)

Local Open Scope Q_scope.

(** The laws of exact arithmetic hold for rationals in lowest terms. *)
Lemma Qc_exact_laws : ExactLaws Qc.
Proof.
  split; intros; cbn.
  - apply Qcplus_0_l.
  - apply Qcplus_0_r.
  - apply Qcplus_assoc.
  - apply Qcmult_1_l.
Qed.


(** An instance: the vector [y2]. *)
Lemma fit_vector_targets_witness :
  shape Exact.y2 = [2]%nat /\
  fit Exact.X2 Exact.y2 (Exact.regressor 2) =
    fit Exact.X2 (newaxis_col Exact.y2) (Exact.regressor 2) /\
  forall self' out,
    fit Exact.X2 Exact.y2 (Exact.regressor 2) = (self', out, Return tt) ->
    n_tasks_ self' = Some 1%nat.
Proof.
  split; [reflexivity|].
  apply (fit_vector_targets Exact.X2 Exact.y2 (Exact.regressor 2) 2).
  reflexivity.
Defined.

(** An instance: a new estimator against one fitted before on two
    tasks. *)
Lemma fit_from_scratch_witness :
  n_components (Exact.regressor 2) = n_components Exact.fitted2x2 /\
  alpha (Exact.regressor 2) = alpha Exact.fitted2x2 /\
  n_init (Exact.regressor 2) = n_init Exact.fitted2x2 /\
  random_state (Exact.regressor 2) = random_state Exact.fitted2x2 /\
  snd (fit Exact.X2 Exact.y2 (Exact.regressor 2)) =
    snd (fit Exact.X2 Exact.y2 Exact.fitted2x2) /\
  snd (fst (fit Exact.X2 Exact.y2 (Exact.regressor 2))) =
    snd (fst (fit Exact.X2 Exact.y2 Exact.fitted2x2)) /\
  (snd (fit Exact.X2 Exact.y2 (Exact.regressor 2)) = Return tt ->
   same_model (fst (fst (fit Exact.X2 Exact.y2 (Exact.regressor 2))))
              (fst (fst (fit Exact.X2 Exact.y2 Exact.fitted2x2)))).
Proof.
  do 4 (split; [vm_compute; reflexivity|]).
  apply (fit_from_scratch Exact.X2 Exact.y2
           (Exact.regressor 2) Exact.fitted2x2);
    vm_compute; reflexivity.
Defined.

(** An instance: a vector in the place of [X]. *)
Lemma fit_rejects_wrong_rank_witness :
  (ndim Exact.y2 <> 2%nat \/
   (ndim Exact.y2 <> 1%nat /\ ndim Exact.y2 <> 2%nat)) /\
  fit Exact.y2 Exact.y2 (Exact.regressor 2) =
    (set_is_fitted_ (Some false) (Exact.regressor 2), [], Raise ValueError).
Proof.
  split; [left; vm_compute; discriminate|].
  apply (fit_rejects_wrong_rank Exact.y2 Exact.y2 (Exact.regressor 2)).
  left. vm_compute. discriminate.
Defined.

(** An instance: three components for two samples. *)
Lemma fit_propagates_mixture_failure_witness :
  shape Exact.X2 = [2; 1]%nat /\
  shape (as_columns Exact.y2) = [2; 1]%nat /\
  GaussianMixture_fit
    (GMM (n_components (Exact.regressor 3)) (n_init (Exact.regressor 3))
         (random_state (Exact.regressor 3))) Exact.X2 = Raise ValueError /\
  fit Exact.X2 Exact.y2 (Exact.regressor 3) =
    (set_is_fitted_ (Some false) (Exact.regressor 3), [], Raise ValueError).
Proof.
  do 3 (split; [vm_compute; reflexivity|]).
  apply (fit_propagates_mixture_failure Exact.X2 Exact.y2
           (Exact.regressor 3) 2 1 1 ValueError);
    vm_compute; reflexivity.
Defined.

(** An instance: the fit on [X2], [y2] with two components. *)
Lemma fit_labels_in_range_witness :
  fit Exact.X2 Exact.y2 (Exact.regressor 2) = (Exact.fitted2, [], Return tt) /\
  exists R L n m,
    resp_tr_ Exact.fitted2 = Some R /\ labels_tr_ Exact.fitted2 = Some L /\
    shape R = [n; m] /\
    List.length L = n /\ Forall (fun l => (l < m)%nat) L.
Proof.
  split; [vm_compute; reflexivity|].
  apply (fit_labels_in_range Exact.X2 Exact.y2
           (Exact.regressor 2) Exact.fitted2 []).
  vm_compute; reflexivity.
Defined.

(** An instance: one task, one feature, two components. *)
Lemma weights_round_trip_witness :
  shape Exact.W2 = [1; 2; 2]%nat /\
  ((if (1 =? 1)%nat then newaxis_front (squeeze Exact.W2)
    else Return (squeeze Exact.W2)) = Return Exact.W2 <->
   (1 <= 1)%nat /\ 2%nat <> 1%nat).
Proof.
  split; [reflexivity|].
  apply (weights_round_trip 1 1 2 Exact.W2). reflexivity.
Defined.

(** An instance: the fit on [X2], [y2] with one component. *)
Lemma one_component_never_predicts_witness :
  fit Exact.X2 Exact.y2 (Exact.regressor 1) = (Exact.fitted1, [], Return tt) /\
  n_components (Exact.regressor 1) = 1%nat /\
  forall X, exists e, snd (predict X Exact.fitted1) = Raise e.
Proof.
  do 2 (split; [vm_compute; reflexivity|]).
  apply (one_component_never_predicts Exact.X2 Exact.y2
           (Exact.regressor 1) Exact.fitted1 []);
    vm_compute; reflexivity.
Defined.

(** An instance: [predict] on the input [fitted2] was fitted on. *)
Lemma predict_on_training_input_witness :
  fit Exact.X2 Exact.y2 (Exact.regressor 2) = (Exact.fitted2, [], Return tt) /\
  (2 <= n_components (Exact.regressor 2))%nat /\
  shape Exact.X2 = [2; 1]%nat /\
  (1 <= 1)%nat /\
  resp_tr_ Exact.fitted2 = Some Exact.R2 /\
  shape Exact.R2 = [2; n_components (Exact.regressor 2)]%nat /\
  resp_tst_ (fst (fst (predict Exact.X2 Exact.fitted2))) =
    resp_tr_ Exact.fitted2 /\
  labels_tst_ (fst (fst (predict Exact.X2 Exact.fitted2))) =
    labels_tr_ Exact.fitted2 /\
  exists T, snd (predict Exact.X2 Exact.fitted2) = Return (Some T).
Proof.
  do 6 (split; [first [vm_compute; reflexivity | apply le_n]|]).
  apply (predict_on_training_input Exact.X2 Exact.y2 Exact.R2
           (Exact.regressor 2) Exact.fitted2 [] 2 1);
    first [vm_compute; reflexivity | apply le_n].
Defined.


(** The shapes stored on that run. *)
Example stored_shapes_after_fit :
  option_map shape (reg_weights_ Exact.fitted2) = Some [2; 2]%nat /\
  option_map shape (reg_precisions_ Exact.fitted2) = Some [2]%nat /\
  option_map shape (reg_weights_ Exact.fitted1) = Some [2]%nat /\
  option_map shape (reg_precisions_ Exact.fitted1) = Some []%nat.
Proof. by_run. Qed.

(** An instance: the fit on [X2] and two tasks. *)
Lemma fit_assembles_components_witness :
  fit Exact.X2 Exact.y2x2 (Exact.regressor 2) =
    (Exact.fitted2x2, [], Return tt) /\
  exists n d t g R W P,
    shape Exact.X2 = [n; d] /\ shape (as_columns Exact.y2x2) = [n; t] /\
    resp_tr_ Exact.fitted2x2 = Some R /\ gmm_ Exact.fitted2x2 = Some g /\
    reg_weights_ Exact.fitted2x2 = Some (squeeze W) /\
    reg_precisions_ Exact.fitted2x2 = Some (squeeze P) /\
    shape W = [t; S d; n_components (Exact.regressor 2)] /\
    shape P = [t; n_components (Exact.regressor 2)] /\
    forall k, (k < n_components (Exact.regressor 2))%nat ->
      exists W_k p_k,
        component_solve Exact.X2 (as_columns Exact.y2x2) R g
          (alpha (Exact.regressor 2)) k = Return (W_k, p_k) /\
        (forall j l, (j < t)%nat -> (l < S d)%nat ->
           get3 W j l k = get2 W_k j l) /\
        (forall j, (j < t)%nat -> get2 P j k = p_k).
Proof.
  split; [vm_compute; reflexivity|].
  apply (fit_assembles_components Exact.X2 Exact.y2x2
           (Exact.regressor 2) Exact.fitted2x2 []).
  vm_compute; reflexivity.
Defined.

(** An instance: one component's regression on [X2] and the single task
    of [y2], with responsibilities and prior weight one half. *)
Lemma single_task_precision_witness :
  shape Exact.X2 = [2; 1]%nat /\
  shape (newaxis_col Exact.y2) = [2; 1]%nat /\
  _estimate_regression_params_k Exact.X2 (newaxis_col Exact.y2)
    (mk1 2 (fun _ => 1 # 2)) 1 (1 # 2) =
    Return ({| shape := [1; 2]%nat; data := [2; 0] |}, 1) /\
  1 = precision_per_task 2 (1 # 2) (tab 2 (fun _ => 1 # 2))
        (tab 2 (fun i =>
           sub (get2 (newaxis_col Exact.y2) i 0)
               (fitted_value 2 1 Exact.X2
                  {| shape := [1; 2]%nat; data := [2; 0] |} i 0))).
Proof.
  do 3 (split; [vm_compute; reflexivity|]).
  apply (single_task_precision Exact.X2 (newaxis_col Exact.y2)
           (fun _ => 1 # 2) 1 (1 # 2) 2 1
           {| shape := [1; 2]%nat; data := [2; 0] |} 1);
    vm_compute; reflexivity.
Defined.

(** An instance: the model of [Rational] on its two samples. *)
Lemma predict_blends_affine_components_witness :
  ExactLaws Qc /\
  Fitted 1 1 2 Rational.W Rational.mixture Rational.model /\
  (2 <= 2)%nat /\ (1 <= 1)%nat /\
  shape Rational.X = [2; 1]%nat /\
  predict_proba Rational.mixture Rational.X =
    Return (mk2 2 2 (fun _ _ => Rational.half)) /\
  shape (mk2 2 2 (fun _ _ => Rational.half)) = [2; 2]%nat /\
  predict Rational.X Rational.model =
  (cached (mk2 2 2 (fun _ _ => Rational.half))
     (tab 2 (fun i =>
        argmax_row (tab 2 (get2 (mk2 2 2 (fun _ _ => Rational.half)) i))))
     Rational.model, [],
   Return (Some (mk2 2 1
     (blend 2 (mk2 2 2 (fun _ _ => Rational.half))
        (component_affine 1 Rational.X Rational.W))))).
Proof.
  split; [exact Qc_exact_laws|].
  split; [repeat split|].
  do 5 (split; [first [reflexivity | apply le_n]|]).
  apply (predict_blends_affine_components Qc_exact_laws 1 1 2 2
           Rational.W Rational.X (mk2 2 2 (fun _ _ => Rational.half))
           Rational.mixture Rational.model);
    first [reflexivity | apply le_n | repeat split].
Defined.

(** An instance: [score] of the fitted model of [Exact] on its training
    data. *)
Lemma score_of_fitted_witness :
  Fitted 1 1 2 Exact.W2 (Exact.uniform_mixture 2 1) Exact.fitted2 /\
  (2 <= 2)%nat /\ (1 <= 1)%nat /\
  shape Exact.X2 = [2; 1]%nat /\
  predict_proba (Exact.uniform_mixture 2 1) Exact.X2 = Return Exact.R2 /\
  shape Exact.R2 = [2; 2]%nat /\
  score Exact.X2 Exact.y2 Exact.fitted2 =
  (cached Exact.R2
     (tab 2 (fun i => argmax_row (tab 2 (get2 Exact.R2 i))))
     Exact.fitted2, [],
   r2_score Exact.y2
     (Some (mk2 2 1 (blend 2 Exact.R2
                       (component_dot 2 1 Exact.X2 Exact.W2))))).
Proof.
  split; [repeat split; vm_compute; reflexivity|].
  do 5 (split; [first [vm_compute; reflexivity | apply le_n]|]).
  apply (score_of_fitted 1 1 2 2 Exact.W2 Exact.X2 Exact.y2 Exact.R2
           (Exact.uniform_mixture 2 1) Exact.fitted2);
    first [ vm_compute; reflexivity | apply le_n
          | repeat split; vm_compute; reflexivity ].
Defined.
